(** * ZNMethod: the collector's view of compiled methods

    A shallow embedding of [src/hotspot/share/gc/z/zNMethod.cpp].

    The C++ code manipulates objects that it does not own ([nmethod],
    [ZNMethodTable], [ZNMethodData], the barrier set, the inline-cache
    buffer).  Calls into these collaborators are recorded as [event]s in a
    trace carried by the [World]; the part of their state that the functions
    of this file read back (slot contents, liveness, the attachment slot,
    the registration table) is kept in the [World] as well.

    Not modelled: [ResourceMark], the logging in [log_register] and
    [log_unregister], and the [ICRefillVerifier] bookkeeping; none of them
    changes the data the functions below read. *)

From stdpp Require Import gmap list.
From Stdlib Require Import ZArith String.

Local Open Scope Z_scope.

(** ** Data model *)

(** [oop*]: the address of a reference slot.  Pointer arithmetic is in units
    of slots, so [p + 1] is the slot after [p]. *)
Definition address := Z.

(** [oop]: the value held in a slot. *)
Definition oop := Z.

Definition NULL : oop := 0.

(** Contents of the reference slots, in the oops table of an nmethod and in
    its instruction stream. *)
Definition Memory := address -> oop.

(** [nmethod*] *)
Definition nmethod_ptr := positive.

(** [relocInfo::relocType] (code/relocInfo.hpp). *)
Inductive relocType :=
| none_type
| oop_type
| virtual_call_type
| opt_virtual_call_type
| static_call_type
| static_stub_type
| runtime_call_type
| external_word_type
| internal_word_type
| section_word_type
| poll_type
| poll_return_type
| metadata_type
| trampoline_stub_type
| runtime_call_w_cp_type
| data_prefix_tag.

Definition is_oop_type (t : relocType) : bool :=
  match t with oop_type => true | _ => false end.

(** What [RelocIterator] yields at one position: the relocation's type and,
    for [oop_type], the answers of the [oop_Relocation] accessors. *)
Record relocation := {
  type : relocType;
  oop_is_immediate : bool;
  oop_value : oop;
  oop_addr : address
}.

(** [ZNMethodDataOops]: the reference-set snapshot. *)
Record ZNMethodDataOops := {
  immediates : list address;
  has_non_immediates : bool
}.

(** [ZNMethodData*]: the address of a metadata record. *)
Definition data_ptr := positive.

(** [ZReentrantLock*]: the lock is a member of the [ZNMethodData] record, so
    the record's address names it. *)
Inductive ZReentrantLock := LockOf (data : data_ptr).

(** Modelled from the spec: [ZNMethodData] is declared in zNMethodData.hpp;
    the record "owns a reentrant lock and a pointer to the current
    reference-set snapshot".  [_oops] is that pointer, NULL until the first
    [swap_oops]. *)
Record ZNMethodData := {
  _oops : option ZNMethodDataOops
}.

(** The parts of an [nmethod] this file reads. *)
Record nmethod := {
  oops_begin : address;
  oops_end : address;
  relocations : list relocation;
  _gc_data : option data_ptr;
  is_alive : bool;
  is_unloading : bool
}.

(** Calls into collaborators, in program order. *)
Inductive event :=
| EvDataCreate (nm : nmethod_ptr) (d : data_ptr)
| EvDataDestroy (d : option data_ptr)
| EvOopsCreate (o : ZNMethodDataOops)
| EvOopsDestroy (o : option ZNMethodDataOops)
| EvTableRegister (nm : nmethod_ptr)
| EvTableUnregister (nm : nmethod_ptr)
| EvWaitUntilIterationDone
| EvNMethodsDoBegin
| EvNMethodsDoEnd
| EvDisarm (nm : nmethod_ptr)
| EvDoOop (p : address)
| EvFixOopRelocations (nm : nmethod_ptr)
| EvLock (l : ZReentrantLock)
| EvUnlock (l : ZReentrantLock)
| EvFlushDependencies (nm : nmethod_ptr) (delete_immediately : bool)
| EvUnlinkFromMethod (nm : nmethod_ptr) (acquire_lock : bool)
| EvUnloadNMethodCaches (nm : nmethod_ptr) (unloading_occurred : bool) (ok : bool)
| EvMakeUnloaded (nm : nmethod_ptr)
| EvSTSLeave
| EvSTSJoin
| EvRefillICStubs.

(** The calling thread, as far as [unregister_nmethod] asks about it. *)
Record Thread := {
  owns_CodeCache_lock : bool;
  is_Code_cache_sweeper_thread : bool
}.

(** [OopClosure]: [do_oop p] may rewrite slots. *)
Definition OopClosure := address -> Memory -> Memory.

(** The collaborators whose code is not in zNMethod.cpp.  [Ext] is the
    state they keep for themselves and that this file never inspects (the
    inline-cache stub pool among it). *)
Class Collaborators (Ext : Type) := {
  (** [Universe::non_oop_word()] *)
  non_oop_word : oop;
  (** whether [BarrierSet::barrier_set()->barrier_set_nmethod()] is non-NULL *)
  barrier_set_nmethod : bool;
  (** what [nmethod::fix_oop_relocations] does to the slots *)
  fix_oop_relocations : nmethod_ptr -> Memory -> Memory;
  (** [nmethod::unload_nmethod_caches]: its result and its effect on the
      collaborators' state *)
  unload_nmethod_caches : nmethod_ptr -> bool -> Ext -> bool * Ext;
  (** [InlineCacheBuffer::refill_ic_stubs] *)
  refill_ic_stubs : Ext -> Ext;
  (** [ZNMethodOopClosure::do_oop], the healing callback *)
  ZNMethodOopClosure : OopClosure
}.

Section ZNMethod.

Context {Ext : Type} `{!Collaborators Ext}.

Record World := {
  memory : Memory;
  code_heap : gmap nmethod_ptr nmethod;
  data_heap : gmap data_ptr ZNMethodData;
  table : list nmethod_ptr;
  ext : Ext;
  trace : list event
}.

(** ** State and failure *)

Inductive outcome (A : Type) :=
| Ok (a : A) (w : World)
| Fatal (msg : string)
| Undefined.

Arguments Ok {A} a w.
Arguments Fatal {A} msg.
Arguments Undefined {A}.

Definition M (A : Type) := World -> outcome A.

Definition ret {A} (a : A) : M A := fun w => Ok a w.

Definition bind {A B} (c : M A) (k : A -> M B) : M B :=
  fun w => match c w with
           | Ok a w' => k a w'
           | Fatal msg => Fatal msg
           | Undefined => Undefined
           end.

Notation "'let!' x ':=' c 'in' k" := (bind c (fun x => k))
  (at level 10, x name, c at level 100, k at level 200).
Notation "'do!' c 'in' k" := (bind c (fun _ => k))
  (at level 10, c at level 100, k at level 200).

Definition set_memory (m : Memory) (w : World) : World :=
  {| memory := m; code_heap := code_heap w; data_heap := data_heap w;
     table := table w; ext := ext w; trace := trace w |}.

Definition set_code_heap (h : gmap nmethod_ptr nmethod) (w : World) : World :=
  {| memory := memory w; code_heap := h; data_heap := data_heap w;
     table := table w; ext := ext w; trace := trace w |}.

Definition set_data_heap (h : gmap data_ptr ZNMethodData) (w : World) : World :=
  {| memory := memory w; code_heap := code_heap w; data_heap := h;
     table := table w; ext := ext w; trace := trace w |}.

Definition set_table (t : list nmethod_ptr) (w : World) : World :=
  {| memory := memory w; code_heap := code_heap w; data_heap := data_heap w;
     table := t; ext := ext w; trace := trace w |}.

Definition set_ext (x : Ext) (w : World) : World :=
  {| memory := memory w; code_heap := code_heap w; data_heap := data_heap w;
     table := table w; ext := x; trace := trace w |}.

Definition add_event (e : event) (w : World) : World :=
  {| memory := memory w; code_heap := code_heap w; data_heap := data_heap w;
     table := table w; ext := ext w; trace := trace w ++ [e] |}.

(** A call into a collaborator. *)
Definition emit (e : event) : M unit := fun w => Ok tt (add_event e w).

(** [*nm]: dereferencing a pointer that names no nmethod is undefined. *)
Definition deref (nm : nmethod_ptr) : M nmethod :=
  fun w => match code_heap w !! nm with
           | Some n => Ok n w
           | None => Undefined
           end.

Definition store (nm : nmethod_ptr) (n : nmethod) : M unit :=
  fun w => Ok tt (set_code_heap (<[nm := n]> (code_heap w)) w).

(** [*data] *)
Definition deref_data (data : data_ptr) : M ZNMethodData :=
  fun w => match data_heap w !! data with
           | Some d => Ok d w
           | None => Undefined
           end.

(** [assert(p, msg)] of utilities/debug.hpp, in a build that compiles
    assertions: a false [p] is a fatal error. *)
Definition assert (b : bool) (msg : string) : M unit :=
  fun w => if b then Ok tt w else Fatal msg.

(** ** Accessors for the attachment slot *)

Definition gc_data (nm : nmethod_ptr) : M (option data_ptr) :=
  let! n := deref nm in ret (_gc_data n).

Definition with_gc_data (n : nmethod) (data : option data_ptr) : nmethod :=
  {| oops_begin := oops_begin n; oops_end := oops_end n;
     relocations := relocations n; _gc_data := data;
     is_alive := is_alive n; is_unloading := is_unloading n |}.

Definition set_gc_data (nm : nmethod_ptr) (data : option data_ptr) : M unit :=
  let! n := deref nm in store nm (with_gc_data n data).

(** ** Collaborators of zNMethodData.hpp *)

(** An address not in use by any metadata record. *)
Definition fresh_data (h : gmap data_ptr ZNMethodData) : data_ptr :=
  fresh (dom h : gset data_ptr).

(** Modelled from the spec: [ZNMethodData::create] allocates the metadata
    record, with its own lock and no snapshot yet. *)
Definition ZNMethodData_create (nm : nmethod_ptr) : M data_ptr :=
  fun w =>
    let d := fresh_data (data_heap w) in
    Ok d (add_event (EvDataCreate nm d)
            (set_data_heap (<[d := {| _oops := None |}]> (data_heap w)) w)).

(** Modelled from the spec: [ZNMethodData::destroy] frees the record;
    destroying NULL does nothing. *)
Definition ZNMethodData_destroy (data : option data_ptr) : M unit :=
  fun w =>
    Ok tt (add_event (EvDataDestroy data)
             match data with
             | Some d => set_data_heap (delete d (data_heap w)) w
             | None => w
             end).

(** Modelled from the spec: [ZNMethodDataOops::create] builds a snapshot from
    the collected immediates and the non-immediate flag. *)
Definition ZNMethodDataOops_create (immediate_oops : list address)
    (non_immediate_oops : bool) : M ZNMethodDataOops :=
  let o := {| immediates := immediate_oops;
              has_non_immediates := non_immediate_oops |} in
  do! emit (EvOopsCreate o) in ret o.

(** [ZNMethodDataOops::destroy]: the snapshot is handed back; snapshots are
    values here, so the call is all that is left of it. *)
Definition ZNMethodDataOops_destroy (o : option ZNMethodDataOops) : M unit :=
  emit (EvOopsDestroy o).

(** Modelled from the spec: [ZNMethodData::swap_oops] installs the new
    snapshot and returns the old one. *)
Definition swap_oops (data : data_ptr) (new_oops : ZNMethodDataOops)
  : M (option ZNMethodDataOops) :=
  let! d := deref_data data in
  fun w => Ok (_oops d)
              (set_data_heap (<[data := {| _oops := Some new_oops |}]> (data_heap w)) w).

(** [data->oops()] *)
Definition oops (data : data_ptr) : M (option ZNMethodDataOops) :=
  let! d := deref_data data in ret (_oops d).

(** ** attach_gc_data and detach_gc_data *)

(** The [while (iter.next())] loop of [attach_gc_data]. *)
Fixpoint find_oop_relocations (iter : list relocation)
    (immediate_oops : list address) (non_immediate_oops : bool)
  : list address * bool :=
  match iter with
  | [] => (immediate_oops, non_immediate_oops)
  | r :: iter' =>
      if negb (is_oop_type (type r)) then
        (* Not an oop *)
        find_oop_relocations iter' immediate_oops non_immediate_oops
      else if negb (oop_is_immediate r) then
        (* Non-immediate oop found *)
        find_oop_relocations iter' immediate_oops true
      else if negb (oop_value r =? NULL) then
        (* Non-NULL immediate oop found *)
        find_oop_relocations iter' (immediate_oops ++ [oop_addr r])
          non_immediate_oops
      else
        find_oop_relocations iter' immediate_oops non_immediate_oops
  end.

Definition attach_gc_data (nm : nmethod_ptr) : M unit :=
  let! n := deref nm in
  let '(immediate_oops, non_immediate_oops) :=
    find_oop_relocations (relocations n) [] false in
  (* Attach GC data to nmethod *)
  let! data0 := gc_data nm in
  let! data := match data0 with
               | None =>
                   let! d := ZNMethodData_create nm in
                   do! set_gc_data nm (Some d) in
                   ret d
               | Some d => ret d
               end in
  (* Attach oops in GC data *)
  let! new_oops := ZNMethodDataOops_create immediate_oops non_immediate_oops in
  let! old_oops := swap_oops data new_oops in
  ZNMethodDataOops_destroy old_oops.

Definition detach_gc_data (nm : nmethod_ptr) : M unit :=
  (* Destroy GC data *)
  let! data := gc_data nm in
  do! ZNMethodData_destroy data in
  set_gc_data nm None.

Definition lock_for_nmethod (nm : nmethod_ptr) : M (option ZReentrantLock) :=
  let! data := gc_data nm in
  match data with
  | None => ret None
  | Some d => ret (Some (LockOf d))
  end.

(** ** Collaborators of zNMethodTable.hpp

    Modelled from the spec: the registration table is "a concurrent set of
    all registered compiled units supporting insert, remove, and a guarded
    iteration mode where begin/end bracket a scan and a separate
    wait-primitive blocks a remover until no scan is in flight".  The set is
    kept as a duplicate-free list; its order is the order in which a scan
    hands the entries to the closure. *)

Definition ZNMethodTable_register_nmethod (nm : nmethod_ptr) : M unit :=
  fun w =>
    Ok tt (add_event (EvTableRegister nm)
             (set_table (if decide (nm ∈ table w) then table w
                         else table w ++ [nm]) w)).

Definition ZNMethodTable_unregister_nmethod (nm : nmethod_ptr) : M unit :=
  fun w =>
    Ok tt (add_event (EvTableUnregister nm)
             (set_table (filter (fun x => x ≠ nm) (table w)) w)).

Definition ZNMethodTable_wait_until_iteration_done : M unit :=
  emit EvWaitUntilIterationDone.

Definition ZNMethodTable_nmethods_do_begin : M unit := emit EvNMethodsDoBegin.

Definition ZNMethodTable_nmethods_do_end : M unit := emit EvNMethodsDoEnd.

(** Applies the closure [cl], whose own state has type [C], to the entries
    in turn. *)
Fixpoint nmethods_do_entries {C} (do_nmethod : C -> nmethod_ptr -> M C)
    (cl : C) (entries : list nmethod_ptr) : M C :=
  match entries with
  | [] => ret cl
  | nm :: entries' =>
      let! cl' := do_nmethod cl nm in
      nmethods_do_entries do_nmethod cl' entries'
  end.

Definition ZNMethodTable_nmethods_do {C} (do_nmethod : C -> nmethod_ptr -> M C)
    (cl : C) : M C :=
  fun w => nmethods_do_entries do_nmethod cl (table w) w.

(** ** Registration *)

Definition disarm_nmethod (nm : nmethod_ptr) : M unit :=
  if barrier_set_nmethod then emit (EvDisarm nm) else ret tt.

Definition register_nmethod (nm : nmethod_ptr) : M unit :=
  (* Create and attach gc data *)
  do! attach_gc_data nm in
  do! ZNMethodTable_register_nmethod nm in
  (* Disarm nmethod entry barrier *)
  disarm_nmethod nm.

Definition unregister_nmethod (self : Thread) (nm : nmethod_ptr) : M unit :=
  do! assert (owns_CodeCache_lock self) "Lock must be held" in
  do! (if is_Code_cache_sweeper_thread self then
         (* The sweeper must wait for any ongoing iteration to complete
            before it can unregister an nmethod. *)
         ZNMethodTable_wait_until_iteration_done
       else ret tt) in
  do! ZNMethodTable_unregister_nmethod nm in
  (* Destroy and detach gc data *)
  detach_gc_data nm.

(** ** The reference visitor *)

(** [cl->do_oop(p)] *)
Definition do_oop (cl : OopClosure) (p : address) : M unit :=
  fun w => Ok tt (add_event (EvDoOop p) (set_memory (cl p (memory w)) w)).

(** [*p != Universe::non_oop_word()] guarding [cl->do_oop(p)] *)
Definition do_oop_unless_non_oop (cl : OopClosure) (p : address) : M unit :=
  fun w => if memory w p =? non_oop_word then Ok tt w else do_oop cl p w.

(** [for (oop* p = begin; p < end; p++)], with [n] slots left before [end]. *)
Fixpoint oops_table_do (cl : OopClosure) (n : nat) (p : address) : M unit :=
  match n with
  | O => ret tt
  | S n' =>
      do! do_oop_unless_non_oop cl p in
      oops_table_do cl n' (p + 1)
  end.

(** [for (oop** p = begin; p < end; p++)] over the snapshot's array. *)
Fixpoint immediates_do (cl : OopClosure) (ps : list address) : M unit :=
  match ps with
  | [] => ret tt
  | p :: ps' =>
      do! do_oop_unless_non_oop cl p in
      immediates_do cl ps'
  end.

(** [nm->fix_oop_relocations()] *)
Definition nm_fix_oop_relocations (nm : nmethod_ptr) : M unit :=
  fun w => Ok tt (add_event (EvFixOopRelocations nm)
                    (set_memory (fix_oop_relocations nm (memory w)) w)).

Definition nmethod_oops_do (nm : nmethod_ptr) (cl : OopClosure) : M unit :=
  (* Process oops table *)
  let! n := deref nm in
  do! oops_table_do cl (Z.to_nat (oops_end n - oops_begin n)) (oops_begin n) in
  let! data := gc_data nm in
  match data with
  | None => fun _ => Undefined
  | Some d =>
      let! o := oops d in
      match o with
      | None => fun _ => Undefined
      | Some snapshot =>
          (* Process immediate oops *)
          do! immediates_do cl (immediates snapshot) in
          (* Process non-immediate oops *)
          if has_non_immediates snapshot then nm_fix_oop_relocations nm
          else ret tt
      end
  end.

(** [ZNMethodToOopsDoClosure::do_nmethod]; the closure carries only [_cl]. *)
Definition ZNMethodToOopsDoClosure_do_nmethod (cl : OopClosure)
    (nm : nmethod_ptr) : M OopClosure :=
  do! nmethod_oops_do nm cl in ret cl.

Definition oops_do_begin : M unit := ZNMethodTable_nmethods_do_begin.

Definition oops_do_end : M unit := ZNMethodTable_nmethods_do_end.

Definition oops_do (cl : OopClosure) : M unit :=
  do! ZNMethodTable_nmethods_do ZNMethodToOopsDoClosure_do_nmethod cl in ret tt.

(** ** Unlink *)

Record ZNMethodUnlinkClosure := {
  _unloading_occurred : bool;
  _failed : bool
}.

Definition set_failed (cl : ZNMethodUnlinkClosure) : ZNMethodUnlinkClosure :=
  {| _unloading_occurred := _unloading_occurred cl; _failed := true |}.

Definition failed (cl : ZNMethodUnlinkClosure) : bool := _failed cl.

(** [ZLocker<ZReentrantLock>] (zLock.inline.hpp): takes the lock on
    construction and releases it when the scope is left; a NULL lock is left
    alone. *)
Definition ZLocker_enter (l : option ZReentrantLock) : M unit :=
  match l with Some l => emit (EvLock l) | None => ret tt end.

Definition ZLocker_leave (l : option ZReentrantLock) : M unit :=
  match l with Some l => emit (EvUnlock l) | None => ret tt end.

(** [nm->unload_nmethod_caches(unloading_occurred)] *)
Definition nm_unload_nmethod_caches (nm : nmethod_ptr)
    (unloading_occurred : bool) : M bool :=
  fun w =>
    let '(ok, x) := unload_nmethod_caches nm unloading_occurred (ext w) in
    Ok ok (add_event (EvUnloadNMethodCaches nm unloading_occurred ok)
             (set_ext x w)).

Definition ZNMethodUnlinkClosure_do_nmethod (cl : ZNMethodUnlinkClosure)
    (nm : nmethod_ptr) : M ZNMethodUnlinkClosure :=
  if failed cl then ret cl
  else
    let! n := deref nm in
    if negb (is_alive n) then ret cl
    else
      let! locker := lock_for_nmethod nm in
      do! ZLocker_enter locker in
      if is_unloading n then
        (* Unlinking of the dependencies must happen before the
           handshake separating unlink and purge. *)
        do! emit (EvFlushDependencies nm false) in
        do! emit (EvUnlinkFromMethod nm false) in
        do! ZLocker_leave locker in
        ret cl
      else
        (* Heal oops and disarm *)
        do! nmethod_oops_do nm ZNMethodOopClosure in
        do! disarm_nmethod nm in
        (* Clear compiled ICs and exception caches *)
        let! ok := nm_unload_nmethod_caches nm (_unloading_occurred cl) in
        let cl' := if negb ok then set_failed cl else cl in
        do! ZLocker_leave locker in
        ret cl'.

(** One turn of the [for (;;)] loop of [unlink] up to [task.success()]:
    the task is constructed, run and destructed.  The workers' shares of the
    table are run one after the other. *)
Definition unlink_task (unloading_occurred : bool) : M bool :=
  do! ZNMethodTable_nmethods_do_begin in
  let! cl := ZNMethodTable_nmethods_do ZNMethodUnlinkClosure_do_nmethod
               {| _unloading_occurred := unloading_occurred;
                  _failed := false |} in
  let success := negb (failed cl) in
  do! ZNMethodTable_nmethods_do_end in
  ret success.

(** [InlineCacheBuffer::refill_ic_stubs()] *)
Definition InlineCacheBuffer_refill_ic_stubs : M unit :=
  fun w => Ok tt (add_event EvRefillICStubs (set_ext (refill_ic_stubs (ext w)) w)).

(** The tail of the loop body, reached when the task failed. *)
Definition unlink_refill : M unit :=
  do! emit EvSTSLeave in
  do! InlineCacheBuffer_refill_ic_stubs in
  emit EvSTSJoin.

(** [unlink]; [fuel] bounds the number of turns of [for (;;)], and [None]
    means that the bound was reached before the loop returned. *)
Fixpoint unlink (fuel : nat) (unloading_occurred : bool) (w : World)
  : option (outcome unit) :=
  match fuel with
  | O => None
  | S fuel' =>
      match unlink_task unloading_occurred w with
      | Ok true w' => Some (Ok tt w')
      | Ok false w' =>
          match unlink_refill w' with
          | Ok _ w'' => unlink fuel' unloading_occurred w''
          | Fatal msg => Some (Fatal msg)
          | Undefined => Some Undefined
          end
      | Fatal msg => Some (Fatal msg)
      | Undefined => Some Undefined
      end
  end.

(** ** Purge *)

Definition with_is_alive (n : nmethod) (b : bool) : nmethod :=
  {| oops_begin := oops_begin n; oops_end := oops_end n;
     relocations := relocations n; _gc_data := _gc_data n;
     is_alive := b; is_unloading := is_unloading n |}.

(** Modelled from the spec: [nmethod::make_unloaded] "marks unloaded"; an
    unloaded unit is no longer alive. *)
Definition nm_make_unloaded (nm : nmethod_ptr) : M unit :=
  let! n := deref nm in
  do! emit (EvMakeUnloaded nm) in
  store nm (with_is_alive n false).

(** [ZNMethodPurgeClosure::do_nmethod]; the closure has no state. *)
Definition ZNMethodPurgeClosure_do_nmethod (cl : unit) (nm : nmethod_ptr)
  : M unit :=
  let! n := deref nm in
  if is_alive n && is_unloading n then nm_make_unloaded nm else ret tt.

Definition purge : M unit :=
  do! ZNMethodTable_nmethods_do_begin in
  do! ZNMethodTable_nmethods_do ZNMethodPurgeClosure_do_nmethod tt in
  ZNMethodTable_nmethods_do_end.

End ZNMethod.

Arguments Ok {Ext A} a w.
Arguments Fatal {Ext A} msg.
Arguments Undefined {Ext A}.

(** ** The classification, in the words of the specification *)

(** A reference-typed relocation that is immediate and whose current value
    is non-null. *)
Definition is_recorded_immediate (r : relocation) : bool :=
  is_oop_type (type r) && oop_is_immediate r && negb (oop_value r =? NULL).

(** A reference-typed relocation that is not immediate. *)
Definition is_non_immediate (r : relocation) : bool :=
  is_oop_type (type r) && negb (oop_is_immediate r).

Definition spec_immediates (rs : list relocation) : list address :=
  List.map oop_addr (List.filter is_recorded_immediate rs).

Definition spec_has_non_immediates (rs : list relocation) : bool :=
  List.existsb is_non_immediate rs.

(** The snapshot the specification asks [attach] to build for [n]. *)
Definition spec_snapshot (n : nmethod) : ZNMethodDataOops :=
  {| immediates := spec_immediates (relocations n);
     has_non_immediates := spec_has_non_immediates (relocations n) |}.

(** ** The traversal, in the words of the specification *)

Section Traversal.

Context {Ext : Type} `{!Collaborators Ext}.

(** "Invoke the callback on every slot whose current value is not the
    sentinel": the slots on which the callback is invoked, and the slot
    contents once it has run on them. *)
Fixpoint visit_slots (cl : OopClosure) (slots : list address) (m : Memory)
  : list address * Memory :=
  match slots with
  | [] => ([], m)
  | p :: slots' =>
      if m p =? non_oop_word then visit_slots cl slots' m
      else
        let '(visited, m') := visit_slots cl slots' (cl p m) in
        (p :: visited, m')
  end.

(** The slots of the raw oops table of [n]. *)
Definition oops_table (n : nmethod) : list address :=
  seqZ (oops_begin n) (Z.of_nat (Z.to_nat (oops_end n - oops_begin n))).

(** The three parts of the traversal of unit [nm], from slot contents [m]:
    the calls made and the slot contents left behind. *)
Definition spec_traversal (nm : nmethod_ptr) (n : nmethod)
    (snapshot : ZNMethodDataOops) (cl : OopClosure) (m : Memory)
  : list event * Memory :=
  let '(visited1, m1) := visit_slots cl (oops_table n) m in
  let '(visited2, m2) := visit_slots cl (immediates snapshot) m1 in
  if has_non_immediates snapshot then
    ((EvDoOop <$> visited1) ++ (EvDoOop <$> visited2) ++
       [EvFixOopRelocations nm],
     fix_oop_relocations nm m2)
  else ((EvDoOop <$> visited1) ++ (EvDoOop <$> visited2), m2).

(** A rewriting of the slots that neither produces nor removes the non-oop
    word, as healing a reference does. *)
Definition keeps_non_oop_words (f : Memory -> Memory) : Prop :=
  forall m q, (f m q =? non_oop_word) = (m q =? non_oop_word).

(** The slots among [slots] that do not hold the non-oop word in [m]. *)
Definition live_slots (slots : list address) (m : Memory) : list address :=
  List.filter (fun p => negb (m p =? non_oop_word)) slots.

(** The calls of a traversal that sees the slot contents [m] throughout. *)
Definition spec_calls (nm : nmethod_ptr) (n : nmethod)
    (snapshot : ZNMethodDataOops) (m : Memory) : list event :=
  (EvDoOop <$> live_slots (oops_table n) m) ++
  (EvDoOop <$> live_slots (immediates snapshot) m) ++
  (if has_non_immediates snapshot then [EvFixOopRelocations nm] else []).

End Traversal.

(** ** Unlink passes *)

(** A cache-release step that reported failure. *)
Definition is_release_failure (e : event) : bool :=
  match e with
  | EvUnloadNMethodCaches _ _ false => true
  | _ => false
  end.

(** The creation of a metadata record. *)
Definition is_create (e : event) : bool :=
  match e with
  | EvDataCreate _ _ => true
  | _ => false
  end.

(** A call of the reference visitor. *)
Definition is_visit (e : event) : bool :=
  match e with
  | EvDoOop _ | EvFixOopRelocations _ => true
  | _ => false
  end.

(** The world after [k] turns of the loop of [unlink] that each failed and
    refilled the stub pool, if the first [k] turns go that way. *)
Fixpoint failed_passes {Ext} `{!Collaborators Ext} (k : nat)
    (unloading_occurred : bool) (w : @World Ext) : option (@World Ext) :=
  match k with
  | O => Some w
  | S k' =>
      match unlink_task unloading_occurred w with
      | Ok false w1 =>
          match unlink_refill w1 with
          | Ok _ w2 => failed_passes k' unloading_occurred w2
          | _ => None
          end
      | _ => None
      end
  end.

(** ** Purge, in the words of the specification *)

(** "Still alive and still classified unloading". *)
Definition purge_selected {Ext} (w : @World Ext) (nm : nmethod_ptr) : bool :=
  match code_heap w !! nm with
  | Some n => is_alive n && is_unloading n
  | None => false
  end.

(** What a purge over a table leaves of unit [n]; [registered] tells
    whether the unit is in the table. *)
Definition purged (registered : bool) (n : nmethod) : nmethod :=
  if registered && is_alive n && is_unloading n then with_is_alive n false
  else n.

(** Two worlds that differ in slot contents and trace at most. *)
Definition same_but_slots {Ext} (w w' : @World Ext) : Prop :=
  code_heap w' = code_heap w /\ data_heap w' = data_heap w /\
  table w' = table w /\ ext w' = ext w.

(** ** Well-formed worlds *)

(** The metadata record of [nm] exists. *)
Definition has_gc_data {Ext} (w : @World Ext) (nm : nmethod_ptr) : Prop :=
  exists n d rec,
    code_heap w !! nm = Some n /\ _gc_data n = Some d /\
    data_heap w !! d = Some rec.

(** "A unit's metadata record exists iff the unit is currently registered." *)
Definition attachment_invariant {Ext} (w : @World Ext) : Prop :=
  forall nm, has_gc_data w nm <-> nm ∈ table w.

(** What the operations of this file maintain about the code cache, the
    metadata records and the registration table. *)
Record well_formed {Ext} (w : @World Ext) : Prop := {
  (** the table holds nmethods, each once *)
  wf_table_valid : forall nm, nm ∈ table w -> is_Some (code_heap w !! nm);
  wf_table_NoDup : NoDup (table w);
  (** the attachment slot is set exactly for the units in the table *)
  wf_attached : forall nm n,
    code_heap w !! nm = Some n -> (is_Some (_gc_data n) <-> nm ∈ table w);
  (** an attached record exists and has a snapshot *)
  wf_data_valid : forall nm n d,
    code_heap w !! nm = Some n -> _gc_data n = Some d ->
    exists snap, data_heap w !! d = Some {| _oops := Some snap |};
  (** every record is attached to a unit, and to one only *)
  wf_data_owned : forall d,
    is_Some (data_heap w !! d) ->
    exists nm n, code_heap w !! nm = Some n /\ _gc_data n = Some d;
  wf_data_unshared : forall nm1 nm2 n1 n2 d,
    code_heap w !! nm1 = Some n1 -> code_heap w !! nm2 = Some n2 ->
    _gc_data n1 = Some d -> _gc_data n2 = Some d -> nm1 = nm2
}.

(** ** The operations of the interface *)

Inductive operation :=
| OpRegister (nm : nmethod_ptr)
| OpUnregister (self : Thread) (nm : nmethod_ptr)
| OpOopsDoBegin
| OpOopsDo (cl : OopClosure)
| OpOopsDoEnd
| OpUnlink (fuel : nat) (unloading_occurred : bool)
| OpPurge
| OpLockFor (nm : nmethod_ptr).

Definition run_operation {Ext} `{!Collaborators Ext} (op : operation)
    (w : @World Ext) : option (outcome unit) :=
  match op with
  | OpRegister nm => Some (register_nmethod nm w)
  | OpUnregister self nm => Some (unregister_nmethod self nm w)
  | OpOopsDoBegin => Some (oops_do_begin w)
  | OpOopsDo cl => Some (oops_do cl w)
  | OpOopsDoEnd => Some (oops_do_end w)
  | OpUnlink fuel unloading_occurred => unlink fuel unloading_occurred w
  | OpPurge => Some (purge w)
  | OpLockFor nm => Some (bind (lock_for_nmethod nm) (fun _ => ret tt) w)
  end.

(** A history of operations, each of which returns. *)
Fixpoint run_operations {Ext} `{!Collaborators Ext} (ops : list operation)
    (w : @World Ext) : option (outcome unit) :=
  match ops with
  | [] => Some (Ok tt w)
  | op :: ops' =>
      match run_operation op w with
      | Some (Ok _ w') => run_operations ops' w'
      | r => r
      end
  end.

Definition unregisters (nm : nmethod_ptr) (op : operation) : bool :=
  match op with
  | OpUnregister _ nm' => bool_decide (nm' = nm)
  | _ => false
  end.

(** How often a history unregisters [nm]. *)
Definition unregistrations (nm : nmethod_ptr) (ops : list operation) : nat :=
  List.length (List.filter (unregisters nm) ops).

Definition is_create_of (nm : nmethod_ptr) (e : event) : bool :=
  match e with
  | EvDataCreate nm' _ => bool_decide (nm' = nm)
  | _ => false
  end.

(** How many metadata records the trace has seen created for [nm]. *)
Definition creations (nm : nmethod_ptr) (tr : list event) : nat :=
  List.length (List.filter (is_create_of nm) tr).

(** 1 for a unit in the registration table, 0 for any other. *)
Definition registered {Ext} (w : @World Ext) (nm : nmethod_ptr) : nat :=
  if bool_decide (nm ∈ table w) then 1%nat else 0%nat.

(** ** A small code cache, for examples

    Unit 1 has two slots in its oops table (at 10 and 11), two immediate
    references (a non-null one at 100 and a null one at 101), one
    non-immediate reference and one relocation that is no reference. *)

Definition ex_relocations : list relocation :=
  [ {| type := oop_type; oop_is_immediate := true;
       oop_value := 7; oop_addr := 100 |};
    {| type := metadata_type; oop_is_immediate := true;
       oop_value := 9; oop_addr := 300 |};
    {| type := oop_type; oop_is_immediate := true;
       oop_value := NULL; oop_addr := 101 |};
    {| type := oop_type; oop_is_immediate := false;
       oop_value := 8; oop_addr := 11 |} ].

Definition ex_nmethod (data : option data_ptr) (alive unloading : bool)
  : nmethod :=
  {| oops_begin := 10; oops_end := 12; relocations := ex_relocations;
     _gc_data := data; is_alive := alive; is_unloading := unloading |}.

(** Slot 10 holds the non-oop word ([-1] here), every other slot its own
    address. *)
Definition ex_memory : Memory := fun p => if p =? 10 then -1 else p.

(** A healing callback: a slot that holds a reference gets a positive value. *)
Definition ex_heal : OopClosure :=
  fun p m q =>
    if q =? p then (if m q =? -1 then -1 else Z.abs (m q) + 1) else m q.

(** Collaborators with a stub pool of capacity 2; releasing the caches of a
    unit takes one stub. *)
#[local] Instance ex_collaborators : Collaborators nat := {|
  non_oop_word := -1;
  barrier_set_nmethod := true;
  fix_oop_relocations := fun nm m => ex_heal 11 m;
  unload_nmethod_caches := fun nm unloading_occurred pool =>
    match pool with O => (false, O) | S pool' => (true, pool') end;
  refill_ic_stubs := fun _ => 2%nat;
  ZNMethodOopClosure := ex_heal
|}.

(** The same collaborators in a VM whose barrier set has no nmethod
    entry barrier. *)
Definition ex_collaborators_no_barrier : Collaborators nat := {|
  non_oop_word := -1;
  barrier_set_nmethod := false;
  fix_oop_relocations := fun nm m => ex_heal 11 m;
  unload_nmethod_caches := fun nm unloading_occurred pool =>
    match pool with O => (false, O) | S pool' => (true, pool') end;
  refill_ic_stubs := fun _ => 2%nat;
  ZNMethodOopClosure := ex_heal
|}.

(** No unit registered yet. *)
Definition ex_world_unregistered : @World nat :=
  {| memory := ex_memory;
     code_heap := {[ 1%positive := ex_nmethod None true false ]};
     data_heap := ∅; table := []; ext := 0%nat; trace := [] |}.

(** Unit 1 registered, with the snapshot that [attach_gc_data] builds; unit
    2 is in the code cache and not registered; [pool] stubs are left. *)
Definition ex_snapshot : ZNMethodDataOops :=
  {| immediates := [100]; has_non_immediates := true |}.

Definition ex_world (alive unloading : bool) (pool : nat) : @World nat :=
  {| memory := ex_memory;
     code_heap := {[ 1%positive := ex_nmethod (Some 5%positive) alive unloading;
                     2%positive := ex_nmethod None true false ]};
     data_heap := {[ 5%positive := {| _oops := Some ex_snapshot |} ]};
     table := [1%positive]; ext := pool; trace := [] |}.

Definition ex_sweeper : Thread :=
  {| owns_CodeCache_lock := true; is_Code_cache_sweeper_thread := true |}.

(** ** The steps of a pass, as relations on traces *)

(** The calls made between taking and releasing lock [l]; a NULL lock is
    neither taken nor released. *)
Definition locked (l : option ZReentrantLock) (body : list event)
  : list event :=
  match l with
  | Some l => [EvLock l] ++ body ++ [EvUnlock l]
  | None => body
  end.

(** What one call of the unlink closure on [nm] does in world [w]: the
    closure it leaves and the calls it makes. *)
Inductive unlink_step {Ext} `{!Collaborators Ext}
    (cl : ZNMethodUnlinkClosure) (nm : nmethod_ptr) (w : @World Ext)
  : ZNMethodUnlinkClosure -> list event -> Prop :=
| step_failed :
    failed cl = true ->
    unlink_step cl nm w cl []
| step_not_alive n :
    failed cl = false ->
    code_heap w !! nm = Some n -> is_alive n = false ->
    unlink_step cl nm w cl []
| step_unloading n :
    failed cl = false ->
    code_heap w !! nm = Some n -> is_alive n = true ->
    is_unloading n = true ->
    unlink_step cl nm w cl
      (locked (LockOf <$> _gc_data n)
         [EvFlushDependencies nm false; EvUnlinkFromMethod nm false])
| step_alive n d snapshot :
    failed cl = false ->
    code_heap w !! nm = Some n -> is_alive n = true ->
    is_unloading n = false ->
    _gc_data n = Some d ->
    data_heap w !! d = Some {| _oops := Some snapshot |} ->
    unlink_step cl nm w
      (if (unload_nmethod_caches nm (_unloading_occurred cl) (ext w)).1
       then cl else set_failed cl)
      (locked (Some (LockOf d))
         ((spec_traversal nm n snapshot ZNMethodOopClosure (memory w)).1 ++
          (if barrier_set_nmethod then [EvDisarm nm] else []) ++
          [EvUnloadNMethodCaches nm (_unloading_occurred cl)
             (unload_nmethod_caches nm (_unloading_occurred cl) (ext w)).1])).

Definition lock_eqb (l1 l2 : ZReentrantLock) : bool :=
  match l1, l2 with LockOf d1, LockOf d2 => Pos.eqb d1 d2 end.


(** Which lock is held after the calls of [tr], starting with [held]; [None]
    if [tr] takes a lock while one is held or releases one that is not
    held. *)
Fixpoint lock_state (held : option ZReentrantLock) (tr : list event)
  : option (option ZReentrantLock) :=
  match tr with
  | [] => Some held
  | EvLock l :: tr' =>
      match held with
      | None => lock_state (Some l) tr'
      | Some _ => None
      end
  | EvUnlock l :: tr' =>
      match held with
      | Some l' => if lock_eqb l' l then lock_state None tr' else None
      | None => None
      end
  | _ :: tr' => lock_state held tr'
  end.

Definition is_lock_event (e : event) : bool :=
  match e with
  | EvLock _ | EvUnlock _ => true
  | _ => false
  end.

(** The calls [oops_do] makes for table entry [nm], by a callback that
    sees the slot contents of [w] throughout. *)
Definition unit_calls {Ext} `{!Collaborators Ext} (w : @World Ext)
    (nm : nmethod_ptr) : list event :=
  match code_heap w !! nm with
  | Some n =>
      match _gc_data n with
      | Some d =>
          match data_heap w !! d with
          | Some {| _oops := Some snapshot |} =>
              spec_calls nm n snapshot (memory w)
          | _ => []
          end
      | None => []
      end
  | None => []
  end.





(** The events of a trace that change the registry: records, snapshots,
    table entries and finalisation. *)
Definition is_registry_event (e : event) : bool :=
  match e with
  | EvDataCreate _ _ | EvDataDestroy _ | EvOopsCreate _ | EvOopsDestroy _
  | EvTableRegister _ | EvTableUnregister _ | EvMakeUnloaded _ => true
  | _ => false
  end.

(** ** Proofs *)

Section Proofs.

Context {Ext : Type} `{!Collaborators Ext}.

Implicit Types (w : @World Ext) (nm : nmethod_ptr) (n : nmethod) (d : data_ptr).

(** *** Reasoning about [bind] *)

Lemma bind_Ok {A B} (c : M A) (k : A -> M B) w a w1 :
  c w = Ok a w1 -> bind c k w = k a w1.
Proof. intros Hc. unfold bind. now rewrite Hc. Qed.

Lemma bind_Ok_inv {A B} (c : M A) (k : A -> M B) w b w' :
  bind c k w = Ok b w' ->
  exists a w1, c w = Ok a w1 /\ k a w1 = Ok b w'.
Proof.
  unfold bind. destruct (c w) as [a w1| |]; try discriminate.
  intros Hk. now exists a, w1.
Qed.

Lemma deref_Some nm n w :
  code_heap w !! nm = Some n -> deref nm w = Ok n w.
Proof. intros Hn. unfold deref. now rewrite Hn. Qed.

Lemma deref_Ok_inv nm n w w' :
  deref nm w = Ok n w' -> w' = w /\ code_heap w !! nm = Some n.
Proof.
  unfold deref. destruct (code_heap w !! nm); [|discriminate].
  intros [= -> ->]. auto.
Qed.

(** *** The relocation walk *)

Lemma find_oop_relocations_spec (iter : list relocation) acc b :
  find_oop_relocations iter acc b =
  (acc ++ spec_immediates iter, b || spec_has_non_immediates iter).
Proof.
  revert acc b.
  induction iter as [|r iter IH]; intros acc b; simpl.
  - now rewrite app_nil_r, orb_false_r.
  - unfold spec_immediates, spec_has_non_immediates. simpl.
    unfold is_recorded_immediate, is_non_immediate.
    destruct (is_oop_type (type r)); simpl.
    + destruct (oop_is_immediate r); simpl.
      * destruct (oop_value r =? NULL); simpl; rewrite IH.
        -- reflexivity.
        -- unfold spec_immediates. now rewrite <- app_assoc.
      * rewrite IH. f_equal. now rewrite orb_true_r.
    + now rewrite IH.
Qed.

(** *** attach_gc_data *)

Lemma gc_data_Some nm n w :
  code_heap w !! nm = Some n -> gc_data nm w = Ok (_gc_data n) w.
Proof.
  intros Hn. unfold gc_data.
  now rewrite (bind_Ok _ _ w n w) by now apply deref_Some.
Qed.

Lemma attach_gc_data_fresh nm n w :
  code_heap w !! nm = Some n ->
  _gc_data n = None ->
  let d := fresh_data (data_heap w) in
  attach_gc_data nm w =
  Ok tt (add_event (EvOopsDestroy None)
          (set_data_heap (<[d := {| _oops := Some (spec_snapshot n) |}]>
                            (<[d := {| _oops := None |}]> (data_heap w)))
            (add_event (EvOopsCreate (spec_snapshot n))
              (set_code_heap (<[nm := with_gc_data n (Some d)]> (code_heap w))
                (add_event (EvDataCreate nm d)
                  (set_data_heap (<[d := {| _oops := None |}]> (data_heap w))
                     w)))))).
Proof.
  intros Hn Hd d. unfold attach_gc_data.
  rewrite (bind_Ok _ _ w n w) by now apply deref_Some.
  rewrite find_oop_relocations_spec. simpl.
  rewrite (bind_Ok _ _ w (_gc_data n) w) by now apply gc_data_Some.
  rewrite Hd.
  unfold bind, ZNMethodData_create, set_gc_data, bind, deref, store, ret,
    ZNMethodDataOops_create, bind, emit, swap_oops, deref_data, bind,
    ZNMethodDataOops_destroy, emit. simpl.
  rewrite Hn. simpl. fold d.
  rewrite lookup_insert_eq. reflexivity.
Qed.

Lemma attach_gc_data_attached nm n d rec w :
  code_heap w !! nm = Some n ->
  _gc_data n = Some d ->
  data_heap w !! d = Some rec ->
  attach_gc_data nm w =
  Ok tt (add_event (EvOopsDestroy (_oops rec))
          (set_data_heap (<[d := {| _oops := Some (spec_snapshot n) |}]>
                            (data_heap w))
            (add_event (EvOopsCreate (spec_snapshot n)) w))).
Proof.
  intros Hn Hd Hrec. unfold attach_gc_data.
  rewrite (bind_Ok _ _ w n w) by now apply deref_Some.
  rewrite find_oop_relocations_spec. simpl.
  rewrite (bind_Ok _ _ w (_gc_data n) w) by now apply gc_data_Some.
  rewrite Hd.
  unfold bind, ret, ZNMethodDataOops_create, bind, emit, swap_oops,
    deref_data, bind, ZNMethodDataOops_destroy, emit. simpl.
  rewrite Hrec. reflexivity.
Qed.

Lemma elem_of_spec_immediates (rs : list relocation) (a : address) :
  a ∈ spec_immediates rs <->
  exists r, r ∈ rs /\ type r = oop_type /\ oop_is_immediate r = true /\
            oop_value r <> NULL /\ oop_addr r = a.
Proof.
  unfold spec_immediates. rewrite list_elem_of_In, in_map_iff.
  split.
  - intros (r & Ha & Hr). apply filter_In in Hr as [Hin Hr].
    exists r. rewrite list_elem_of_In. split; [done|].
    unfold is_recorded_immediate in Hr.
    apply andb_prop in Hr as [Hr Hv]. apply andb_prop in Hr as [Ht Hi].
    repeat split; try done.
    + now destruct (type r).
    + apply negb_true_iff, Z.eqb_neq in Hv. done.
  - intros (r & Hin & Ht & Hi & Hv & Ha). exists r. split; [done|].
    apply filter_In. split; [now apply list_elem_of_In|].
    unfold is_recorded_immediate. rewrite Ht, Hi. simpl.
    now apply negb_true_iff, Z.eqb_neq.
Qed.

Lemma spec_has_non_immediates_true (rs : list relocation) :
  spec_has_non_immediates rs = true <->
  exists r, r ∈ rs /\ type r = oop_type /\ oop_is_immediate r = false.
Proof.
  unfold spec_has_non_immediates. rewrite existsb_exists. split.
  - intros (r & Hin & Hr). exists r. split; [now apply list_elem_of_In|].
    unfold is_non_immediate in Hr. apply andb_prop in Hr as [Ht Hi].
    split; [now destruct (type r)|now apply negb_true_iff].
  - intros (r & Hin & Ht & Hi). exists r. split; [now apply list_elem_of_In|].
    unfold is_non_immediate. now rewrite Ht, Hi.
Qed.

(** C4: [attach_gc_data] installs a snapshot whose immediate list holds
    exactly the slot addresses of the immediate reference relocations with a
    non-null value, in the order of the relocation walk, and whose
    non-immediate flag is set iff some reference relocation is not
    immediate; every recorded address belongs to an immediate relocation. *)
Theorem attach_gc_data_classifies nm n w :
  code_heap w !! nm = Some n ->
  (forall d, _gc_data n = Some d -> is_Some (data_heap w !! d)) ->
  exists w' n' d snap,
    attach_gc_data nm w = Ok tt w' /\
    code_heap w' !! nm = Some n' /\ _gc_data n' = Some d /\
    data_heap w' !! d = Some {| _oops := Some snap |} /\
    immediates snap = spec_immediates (relocations n) /\
    (forall a, a ∈ immediates snap <->
       exists r, r ∈ relocations n /\ type r = oop_type /\
                 oop_is_immediate r = true /\ oop_value r <> NULL /\
                 oop_addr r = a) /\
    (has_non_immediates snap = true <->
       exists r, r ∈ relocations n /\ type r = oop_type /\
                 oop_is_immediate r = false).
Proof.
  intros Hn Hvalid.
  destruct (_gc_data n) as [d|] eqn:Hd.
  - destruct (Hvalid d eq_refl) as [rec Hrec].
    eexists _, n, d, (spec_snapshot n).
    split; [now apply (attach_gc_data_attached nm n d rec)|].
    simpl. rewrite lookup_insert_eq.
    repeat split; try done;
      try apply elem_of_spec_immediates; try apply spec_has_non_immediates_true.
  - eexists _, (with_gc_data n (Some (fresh_data (data_heap w)))),
      (fresh_data (data_heap w)), (spec_snapshot n).
    split; [exact (attach_gc_data_fresh nm n w Hn Hd)|].
    simpl. rewrite !lookup_insert_eq.
    repeat split; try done;
      try apply elem_of_spec_immediates; try apply spec_has_non_immediates_true.
Qed.

(** *** lock_for_nmethod *)

Lemma well_formed_attachment_invariant w :
  well_formed w -> attachment_invariant w.
Proof.
  intros Hwf nm. split.
  - intros (n & d & rec & Hn & Hd & _).
    apply (wf_attached w Hwf nm n Hn). now rewrite Hd.
  - intros Hin.
    destruct (wf_table_valid w Hwf nm Hin) as [n Hn].
    destruct (proj2 (wf_attached w Hwf nm n Hn) Hin) as [d Hd].
    destruct (wf_data_valid w Hwf nm n d Hn Hd) as [snap Hsnap].
    now exists n, d, {| _oops := Some snap |}.
Qed.

Lemma lock_for_nmethod_Some nm n w :
  code_heap w !! nm = Some n ->
  lock_for_nmethod nm w = Ok (LockOf <$> _gc_data n) w.
Proof.
  intros Hn. unfold lock_for_nmethod.
  rewrite (bind_Ok _ _ w (_gc_data n) w) by now apply gc_data_Some.
  now destruct (_gc_data n).
Qed.

(** C9: [lock_for_nmethod] returns the lock that is a member of the
    metadata record attached to the unit, and NULL when no record is
    attached; in a well-formed world the latter is the case exactly for the
    units that are not in the registration table. *)
Theorem lock_for_nmethod_spec nm n w :
  code_heap w !! nm = Some n ->
  (forall d, _gc_data n = Some d ->
     lock_for_nmethod nm w = Ok (Some (LockOf d)) w) /\
  (_gc_data n = None -> lock_for_nmethod nm w = Ok None w) /\
  (well_formed w ->
     (lock_for_nmethod nm w = Ok None w <-> nm ∉ table w) /\
     (has_gc_data w nm <-> exists d, lock_for_nmethod nm w = Ok (Some (LockOf d)) w)).
Proof.
  intros Hn. rewrite (lock_for_nmethod_Some nm n w Hn).
  split; [|split].
  - intros d Hd. now rewrite Hd.
  - intros Hd. now rewrite Hd.
  - intros Hwf. pose proof (wf_attached w Hwf nm n Hn) as Hatt. split.
    + rewrite <- Hatt. destruct (_gc_data n) as [d|]; simpl.
      * split; [discriminate|]. intros Hc. destruct Hc. eauto.
      * split; [|done]. intros _ [d Hd]. discriminate.
    + split.
      * intros (n' & d & rec & Hn' & Hd & _).
        assert (n' = n) as -> by congruence. exists d. now rewrite Hd.
      * intros [d Hd]. destruct (_gc_data n) as [d'|] eqn:Hd'; [|discriminate].
        destruct (wf_data_valid w Hwf nm n d' Hn Hd') as [snap Hsnap].
        now exists n, d', {| _oops := Some snap |}.
Qed.

(** *** unregister_nmethod *)

Lemma detach_gc_data_Some nm n w :
  code_heap w !! nm = Some n ->
  detach_gc_data nm w =
  let w1 := add_event (EvDataDestroy (_gc_data n))
              match _gc_data n with
              | Some d => set_data_heap (delete d (data_heap w)) w
              | None => w
              end in
  Ok tt (set_code_heap (<[nm := with_gc_data n None]> (code_heap w1)) w1).
Proof.
  intros Hn. unfold detach_gc_data.
  rewrite (bind_Ok _ _ w (_gc_data n) w) by now apply gc_data_Some.
  unfold bind, ZNMethodData_destroy, set_gc_data, bind, deref, store.
  destruct (_gc_data n); simpl; now rewrite Hn.
Qed.

Lemma unregister_nmethod_unlocked self nm w :
  owns_CodeCache_lock self = false ->
  unregister_nmethod self nm w = Fatal "Lock must be held".
Proof. intros Hl. unfold unregister_nmethod, bind, assert. now rewrite Hl. Qed.

Lemma unregister_nmethod_locked self nm n w :
  owns_CodeCache_lock self = true ->
  code_heap w !! nm = Some n ->
  unregister_nmethod self nm w =
  let w0 := if is_Code_cache_sweeper_thread self
            then add_event EvWaitUntilIterationDone w else w in
  let w1 := add_event (EvTableUnregister nm)
              (set_table (filter (fun x => x ≠ nm) (table w0)) w0) in
  let w2 := add_event (EvDataDestroy (_gc_data n))
              match _gc_data n with
              | Some d => set_data_heap (delete d (data_heap w1)) w1
              | None => w1
              end in
  Ok tt (set_code_heap (<[nm := with_gc_data n None]> (code_heap w2)) w2).
Proof.
  intros Hl Hn. unfold unregister_nmethod.
  unfold bind at 1. unfold assert. rewrite Hl.
  unfold bind at 1.
  destruct (is_Code_cache_sweeper_thread self); simpl;
    unfold bind, ZNMethodTable_unregister_nmethod;
    now rewrite (detach_gc_data_Some nm n) by done.
Qed.

Lemma unregister_nmethod_run self nm n w :
  owns_CodeCache_lock self = true ->
  code_heap w !! nm = Some n ->
  exists w',
    unregister_nmethod self nm w = Ok tt w' /\
    trace w' =
      trace w ++
      (if is_Code_cache_sweeper_thread self
       then [EvWaitUntilIterationDone] else []) ++
      [EvTableUnregister nm; EvDataDestroy (_gc_data n)] /\
    table w' = filter (fun x => x ≠ nm) (table w) /\
    code_heap w' = <[nm := with_gc_data n None]> (code_heap w) /\
    data_heap w' = match _gc_data n with
                   | Some d => delete d (data_heap w)
                   | None => data_heap w
                   end.
Proof.
  intros Hl Hn. eexists.
  split; [exact (unregister_nmethod_locked self nm n w Hl Hn)|].
  simpl. repeat split;
    destruct (_gc_data n), (is_Code_cache_sweeper_thread self); simpl;
    now rewrite <- ?app_assoc.
Qed.

(** C6: without the code-cache lock [unregister_nmethod] stops with the
    fatal assertion.  With it, the sweeper thread, and only the sweeper
    thread, first calls the table's wait primitive; then the unit is removed
    from the table and after that its metadata record is destroyed and the
    attachment slot cleared. *)
Theorem unregister_nmethod_spec self nm n w :
  code_heap w !! nm = Some n ->
  (owns_CodeCache_lock self = false ->
     unregister_nmethod self nm w = Fatal "Lock must be held") /\
  (owns_CodeCache_lock self = true ->
     exists w',
       unregister_nmethod self nm w = Ok tt w' /\
       trace w' =
         trace w ++
         (if is_Code_cache_sweeper_thread self
          then [EvWaitUntilIterationDone] else []) ++
         [EvTableUnregister nm; EvDataDestroy (_gc_data n)] /\
       table w' = filter (fun x => x ≠ nm) (table w) /\
       (nm ∉ table w') /\
       code_heap w' = <[nm := with_gc_data n None]> (code_heap w) /\
       data_heap w' = match _gc_data n with
                      | Some d => delete d (data_heap w)
                      | None => data_heap w
                      end /\
       ~ has_gc_data w' nm).
Proof.
  intros Hn. split; [apply unregister_nmethod_unlocked|].
  intros Hl.
  destruct (unregister_nmethod_run self nm n w Hl Hn)
    as (w' & Hrun & Htr & Ht & Hc & Hd).
  exists w'. repeat split; try done.
  - rewrite Ht, list_elem_of_filter. intros [Hne _]. now apply Hne.
  - intros (n' & d & rec & Hn' & Hg & _). rewrite Hc in Hn'.
    rewrite lookup_insert_eq in Hn'. injection Hn' as <-. discriminate.
Qed.

(** *** The reference visitor *)

Lemma same_but_slots_refl w : same_but_slots w w.
Proof. now repeat split. Qed.

Lemma same_but_slots_trans w1 w2 w3 :
  same_but_slots w1 w2 -> same_but_slots w2 w3 -> same_but_slots w1 w3.
Proof.
  intros (Hc & Hd & Ht & He) (Hc' & Hd' & Ht' & He').
  repeat split; congruence.
Qed.

Lemma oops_table_do_immediates_do cl (k : nat) p w :
  oops_table_do cl k p w = immediates_do cl (seqZ p (Z.of_nat k)) w.
Proof.
  revert p w. induction k as [|k IH]; intros p w.
  - reflexivity.
  - rewrite seqZ_cons by lia. simpl oops_table_do. simpl immediates_do.
    unfold bind. destruct (do_oop_unless_non_oop cl p w); try reflexivity.
    rewrite IH. do 2 f_equal; lia.
Qed.

Lemma immediates_do_spec cl (ps : list address) w :
  exists w',
    immediates_do cl ps w = Ok tt w' /\
    trace w' = trace w ++ (EvDoOop <$> (visit_slots cl ps (memory w)).1) /\
    memory w' = (visit_slots cl ps (memory w)).2 /\
    same_but_slots w w'.
Proof.
  revert w. induction ps as [|p ps IH]; intros w; simpl.
  - exists w. rewrite app_nil_r. eauto using same_but_slots_refl.
  - unfold bind, do_oop_unless_non_oop.
    destruct (memory w p =? non_oop_word).
    + apply IH.
    + unfold do_oop.
      destruct (IH (add_event (EvDoOop p) (set_memory (cl p (memory w)) w)))
        as (w' & Hrun & Htr & Hmem & Hsame).
      exists w'. simpl in *.
      destruct (visit_slots cl ps (cl p (memory w))) as [visited m'].
      simpl in *. rewrite Htr, <- app_assoc. auto.
Qed.

Lemma nmethod_oops_do_registered nm n d snapshot cl w :
  code_heap w !! nm = Some n ->
  _gc_data n = Some d ->
  data_heap w !! d = Some {| _oops := Some snapshot |} ->
  exists w',
    nmethod_oops_do nm cl w = Ok tt w' /\
    trace w' = trace w ++ (spec_traversal nm n snapshot cl (memory w)).1 /\
    memory w' = (spec_traversal nm n snapshot cl (memory w)).2 /\
    same_but_slots w w'.
Proof.
  intros Hn Hd Hsnap. unfold nmethod_oops_do, spec_traversal.
  rewrite (bind_Ok _ _ w n w) by now apply deref_Some.
  destruct (immediates_do_spec cl (oops_table n) w)
    as (w1 & Hrun1 & Htr1 & Hmem1 & Hsame1).
  rewrite (bind_Ok _ _ w tt w1)
    by (rewrite oops_table_do_immediates_do; exact Hrun1).
  destruct Hsame1 as (Hc1 & Hd1 & Ht1 & He1).
  rewrite (bind_Ok _ _ w1 (Some d) w1)
    by (rewrite <- Hd; apply gc_data_Some; congruence).
  unfold oops. rewrite (bind_Ok _ _ w1 (Some snapshot) w1).
  2:{ unfold bind, deref_data. now rewrite Hd1, Hsnap. }
  destruct (immediates_do_spec cl (immediates snapshot) w1)
    as (w2 & Hrun2 & Htr2 & Hmem2 & Hsame2).
  rewrite (bind_Ok _ _ w1 tt w2) by done.
  destruct Hsame2 as (Hc2 & Hd2 & Ht2 & He2).
  rewrite Hmem1 in Htr2, Hmem2.
  destruct (visit_slots cl (oops_table n) (memory w)) as [visited1 m1].
  simpl in *.
  destruct (visit_slots cl (immediates snapshot) m1) as [visited2 m2].
  simpl in *.
  destruct (has_non_immediates snapshot).
  - eexists. split; [reflexivity|]. simpl.
    rewrite Htr2, Htr1, Hmem2, <- !app_assoc.
    unfold same_but_slots. simpl. repeat split; congruence.
  - exists w2. split; [reflexivity|]. simpl.
    rewrite Htr2, Htr1, <- !app_assoc.
    unfold same_but_slots. repeat split; congruence.
Qed.

Lemma elem_of_oops_table n (p : address) :
  p ∈ oops_table n <-> oops_begin n <= p < oops_end n.
Proof. unfold oops_table. rewrite elem_of_seqZ. lia. Qed.

Lemma visit_slots_visited cl (ps : list address) m (p : address) :
  p ∈ (visit_slots cl ps m).1 -> p ∈ ps.
Proof.
  revert m. induction ps as [|q ps IH]; intros m; simpl.
  - done.
  - destruct (m q =? non_oop_word).
    + intros Hp. right. now apply (IH m).
    + specialize (IH (cl q m)).
      destruct (visit_slots cl ps (cl q m)) as [visited m']. simpl in *.
      rewrite elem_of_cons. intros [->|Hp]; [left|right]; auto.
Qed.

Lemma live_slots_ext (ps : list address) m m' :
  (forall q, (m' q =? non_oop_word) = (m q =? non_oop_word)) ->
  live_slots ps m' = live_slots ps m.
Proof.
  intros Hm. unfold live_slots. apply filter_ext. intros p. now rewrite Hm.
Qed.

Lemma visit_slots_stable cl (ps : list address) m :
  (forall p, keeps_non_oop_words (cl p)) ->
  (visit_slots cl ps m).1 = live_slots ps m /\
  (forall q, ((visit_slots cl ps m).2 q =? non_oop_word)
             = (m q =? non_oop_word)).
Proof.
  intros Hcl. revert m. induction ps as [|p ps IH]; intros m; simpl.
  - done.
  - destruct (m p =? non_oop_word) eqn:Hp; simpl.
    + apply IH.
    + destruct (IH (cl p m)) as [Hvis Hmem].
      destruct (visit_slots cl ps (cl p m)) as [visited m']. simpl in *.
      split.
      * rewrite Hvis. f_equal. apply live_slots_ext, Hcl.
      * intros q. now rewrite Hmem, Hcl.
Qed.

Lemma nmethod_oops_do_stable nm n d snapshot cl w :
  code_heap w !! nm = Some n ->
  _gc_data n = Some d ->
  data_heap w !! d = Some {| _oops := Some snapshot |} ->
  (forall p, keeps_non_oop_words (cl p)) ->
  exists w',
    nmethod_oops_do nm cl w = Ok tt w' /\
    trace w' = trace w ++ spec_calls nm n snapshot (memory w) /\
    same_but_slots w w' /\
    (keeps_non_oop_words (fix_oop_relocations nm) ->
     forall q, (memory w' q =? non_oop_word) = (memory w q =? non_oop_word)).
Proof.
  intros Hn Hd Hsnap Hcl.
  destruct (nmethod_oops_do_registered nm n d snapshot cl w Hn Hd Hsnap)
    as (w' & Hrun & Htr & Hmem & Hsame).
  exists w'. split; [done|].
  unfold spec_traversal in Htr, Hmem.
  destruct (visit_slots_stable cl (oops_table n) (memory w) Hcl)
    as [Hvis1 Hmem1].
  destruct (visit_slots cl (oops_table n) (memory w)) as [visited1 m1].
  destruct (visit_slots_stable cl (immediates snapshot) m1 Hcl)
    as [Hvis2 Hmem2].
  destruct (visit_slots cl (immediates snapshot) m1) as [visited2 m2].
  simpl in *. subst visited1 visited2.
  rewrite (live_slots_ext _ (memory w) m1 Hmem1) in Htr.
  unfold spec_calls.
  destruct (has_non_immediates snapshot); simpl in *.
  - split; [done|]. split; [done|].
    intros Hfix q. rewrite Hmem, (Hfix m2 q), Hmem2. apply Hmem1.
  - rewrite app_nil_r. split; [done|]. split; [done|].
    intros _ q. rewrite Hmem, Hmem2. apply Hmem1.
Qed.

(** C1: on a registered unit [nmethod_oops_do] makes these calls and no
    others: the callback on the slots of the oops table that do not hold the
    non-oop word when the walk reaches them, then the callback on the
    immediate slots of the snapshot that do not hold it when reached, then
    [fix_oop_relocations] iff the snapshot's non-immediate flag is set.  With
    a callback that neither writes nor erases the non-oop word, the slots
    visited are those that did not hold it at the start. *)
Theorem nmethod_oops_do_traversal nm n d snapshot cl w :
  code_heap w !! nm = Some n ->
  _gc_data n = Some d ->
  data_heap w !! d = Some {| _oops := Some snapshot |} ->
  exists w' visited1 m1 visited2 m2,
    nmethod_oops_do nm cl w = Ok tt w' /\
    visit_slots cl (oops_table n) (memory w) = (visited1, m1) /\
    visit_slots cl (immediates snapshot) m1 = (visited2, m2) /\
    trace w' =
      trace w ++ (EvDoOop <$> visited1) ++ (EvDoOop <$> visited2) ++
      (if has_non_immediates snapshot then [EvFixOopRelocations nm] else []) /\
    memory w' =
      (if has_non_immediates snapshot then fix_oop_relocations nm m2 else m2) /\
    same_but_slots w w' /\
    (forall p, p ∈ visited1 -> oops_begin n <= p < oops_end n) /\
    (forall p, p ∈ visited2 -> p ∈ immediates snapshot) /\
    ((forall p, keeps_non_oop_words (cl p)) ->
     visited1 = live_slots (oops_table n) (memory w) /\
     visited2 = live_slots (immediates snapshot) (memory w)).
Proof.
  intros Hn Hd Hsnap.
  destruct (nmethod_oops_do_registered nm n d snapshot cl w Hn Hd Hsnap)
    as (w' & Hrun & Htr & Hmem & Hsame).
  unfold spec_traversal in Htr, Hmem.
  destruct (visit_slots cl (oops_table n) (memory w))
    as [visited1 m1] eqn:Hvis1.
  destruct (visit_slots cl (immediates snapshot) m1)
    as [visited2 m2] eqn:Hvis2.
  exists w', visited1, m1, visited2, m2.
  split; [done|]. split; [done|]. split; [done|].
  split; [|split; [|split; [done|split; [|split]]]].
  - destruct (has_non_immediates snapshot); simpl in Htr;
      now rewrite Htr, ?app_nil_r.
  - now destruct (has_non_immediates snapshot).
  - intros p Hp. apply elem_of_oops_table.
    apply (visit_slots_visited cl _ (memory w)). now rewrite Hvis1.
  - intros p Hp. apply (visit_slots_visited cl _ m1). now rewrite Hvis2.
  - intros Hcl.
    destruct (visit_slots_stable cl (oops_table n) (memory w) Hcl)
      as [Hv1 Hm1].
    destruct (visit_slots_stable cl (immediates snapshot) m1 Hcl)
      as [Hv2 _].
    rewrite Hvis1 in Hv1, Hm1. rewrite Hvis2 in Hv2. simpl in *.
    split; [done|]. rewrite Hv2. now apply live_slots_ext.
Qed.

(** C7: with a callback and a relocation-fix routine that neither write nor
    erase the non-oop word, two runs of [nmethod_oops_do] in a row on a
    registered unit make the same calls on the same slots, and neither run
    changes the code cache or the metadata records: the snapshot stays as it
    was. *)
Theorem nmethod_oops_do_idempotent nm n d snapshot cl w :
  code_heap w !! nm = Some n ->
  _gc_data n = Some d ->
  data_heap w !! d = Some {| _oops := Some snapshot |} ->
  (forall p, keeps_non_oop_words (cl p)) ->
  keeps_non_oop_words (fix_oop_relocations nm) ->
  exists w1 w2,
    nmethod_oops_do nm cl w = Ok tt w1 /\
    nmethod_oops_do nm cl w1 = Ok tt w2 /\
    trace w1 = trace w ++ spec_calls nm n snapshot (memory w) /\
    trace w2 = trace w1 ++ spec_calls nm n snapshot (memory w) /\
    code_heap w1 = code_heap w /\ code_heap w2 = code_heap w /\
    data_heap w1 = data_heap w /\ data_heap w2 = data_heap w /\
    data_heap w2 !! d = Some {| _oops := Some snapshot |}.
Proof.
  intros Hn Hd Hsnap Hcl Hfix.
  destruct (nmethod_oops_do_stable nm n d snapshot cl w Hn Hd Hsnap Hcl)
    as (w1 & Hrun1 & Htr1 & (Hc1 & Hd1 & _ & _) & Hmem1).
  specialize (Hmem1 Hfix).
  assert (code_heap w1 !! nm = Some n) as Hn1 by now rewrite Hc1.
  assert (data_heap w1 !! d = Some {| _oops := Some snapshot |}) as Hsnap1
    by now rewrite Hd1.
  destruct (nmethod_oops_do_stable nm n d snapshot cl w1 Hn1 Hd Hsnap1 Hcl)
    as (w2 & Hrun2 & Htr2 & (Hc2 & Hd2 & _ & _) & _).
  exists w1, w2. repeat split; try congruence.
  rewrite Htr2. f_equal. unfold spec_calls.
  now rewrite !(live_slots_ext _ (memory w) (memory w1) Hmem1).
Qed.

(** *** The unlink closure *)

Lemma do_nmethod_failed cl nm w :
  failed cl = true -> ZNMethodUnlinkClosure_do_nmethod cl nm w = Ok cl w.
Proof. intros Hf. unfold ZNMethodUnlinkClosure_do_nmethod. now rewrite Hf. Qed.

Lemma do_nmethod_not_alive cl nm n w :
  code_heap w !! nm = Some n ->
  is_alive n = false ->
  ZNMethodUnlinkClosure_do_nmethod cl nm w = Ok cl w.
Proof.
  intros Hn Ha. unfold ZNMethodUnlinkClosure_do_nmethod.
  destruct (failed cl); [done|].
  rewrite (bind_Ok _ _ w n w) by now apply deref_Some.
  now rewrite Ha.
Qed.

Lemma do_nmethod_unloading cl nm n d w :
  failed cl = false ->
  code_heap w !! nm = Some n ->
  _gc_data n = Some d ->
  is_alive n = true ->
  is_unloading n = true ->
  ZNMethodUnlinkClosure_do_nmethod cl nm w =
  Ok cl (add_event (EvUnlock (LockOf d))
          (add_event (EvUnlinkFromMethod nm false)
            (add_event (EvFlushDependencies nm false)
              (add_event (EvLock (LockOf d)) w)))).
Proof.
  intros Hf Hn Hd Ha Hu. unfold ZNMethodUnlinkClosure_do_nmethod.
  rewrite Hf.
  rewrite (bind_Ok _ _ w n w) by now apply deref_Some.
  rewrite Ha. simpl.
  rewrite (bind_Ok _ _ w (Some (LockOf d)) w)
    by (rewrite (lock_for_nmethod_Some nm n) by done; now rewrite Hd).
  now rewrite Hu.
Qed.

Lemma do_nmethod_alive cl nm n d snapshot w :
  failed cl = false ->
  code_heap w !! nm = Some n ->
  _gc_data n = Some d ->
  data_heap w !! d = Some {| _oops := Some snapshot |} ->
  is_alive n = true ->
  is_unloading n = false ->
  exists w1 w',
    nmethod_oops_do nm ZNMethodOopClosure (add_event (EvLock (LockOf d)) w)
      = Ok tt w1 /\
    ZNMethodUnlinkClosure_do_nmethod cl nm w =
      Ok (if (unload_nmethod_caches nm (_unloading_occurred cl) (ext w)).1
          then cl else set_failed cl) w' /\
    trace w' =
      trace w1 ++
      (if barrier_set_nmethod then [EvDisarm nm] else []) ++
      [EvUnloadNMethodCaches nm (_unloading_occurred cl)
         (unload_nmethod_caches nm (_unloading_occurred cl) (ext w)).1;
       EvUnlock (LockOf d)] /\
    memory w' = memory w1 /\
    ext w' = (unload_nmethod_caches nm (_unloading_occurred cl) (ext w)).2 /\
    code_heap w' = code_heap w /\ data_heap w' = data_heap w /\
    table w' = table w.
Proof.
  intros Hf Hn Hd Hsnap Ha Hu.
  destruct (nmethod_oops_do_registered nm n d snapshot ZNMethodOopClosure
              (add_event (EvLock (LockOf d)) w) Hn Hd Hsnap)
    as (w1 & Hrun & _ & _ & Hc1 & Hd1 & Ht1 & He1).
  simpl in Hc1, Hd1, Ht1, He1.
  exists w1. unfold ZNMethodUnlinkClosure_do_nmethod.
  rewrite Hf.
  rewrite (bind_Ok _ _ w n w) by now apply deref_Some.
  rewrite Ha. simpl.
  rewrite (bind_Ok _ _ w (Some (LockOf d)) w)
    by (rewrite (lock_for_nmethod_Some nm n) by done; now rewrite Hd).
  rewrite Hu. simpl.
  unfold bind at 1. unfold emit at 1.
  rewrite (bind_Ok _ _ _ tt w1) by exact Hrun.
  unfold disarm_nmethod, nm_unload_nmethod_caches, bind, emit, ret.
  destruct barrier_set_nmethod; simpl; rewrite He1;
    destruct (unload_nmethod_caches nm (_unloading_occurred cl) (ext w))
      as [ok x]; simpl;
    eexists; (split; [exact Hrun|]); (split; [destruct ok; reflexivity|]);
    simpl; rewrite <- ?app_assoc; repeat split; done.
Qed.

Lemma unlink_do_nmethod_alive_trace cl nm n d snapshot w :
  failed cl = false ->
  code_heap w !! nm = Some n ->
  _gc_data n = Some d ->
  data_heap w !! d = Some {| _oops := Some snapshot |} ->
  is_alive n = true ->
  is_unloading n = false ->
  exists w',
    ZNMethodUnlinkClosure_do_nmethod cl nm w =
      Ok (if (unload_nmethod_caches nm (_unloading_occurred cl) (ext w)).1
          then cl else set_failed cl) w' /\
    trace w' =
      trace w ++ [EvLock (LockOf d)] ++
      (spec_traversal nm n snapshot ZNMethodOopClosure (memory w)).1 ++
      (if barrier_set_nmethod then [EvDisarm nm] else []) ++
      [EvUnloadNMethodCaches nm (_unloading_occurred cl)
         (unload_nmethod_caches nm (_unloading_occurred cl) (ext w)).1;
       EvUnlock (LockOf d)] /\
    code_heap w' = code_heap w /\ data_heap w' = data_heap w /\
    table w' = table w.
Proof.
  intros Hf Hn Hd Hsnap Ha Hu.
  destruct (do_nmethod_alive cl nm n d snapshot w Hf Hn Hd Hsnap Ha Hu)
    as (w1 & w' & Hrun & Hdo & Htr & Hmem & Hext & Hc & Hdh & Ht).
  destruct (nmethod_oops_do_registered nm n d snapshot ZNMethodOopClosure
              (add_event (EvLock (LockOf d)) w) Hn Hd Hsnap)
    as (w1' & Hrun' & Htr1 & _).
  rewrite Hrun in Hrun'. injection Hrun' as <-.
  exists w'. simpl in Htr1.
  rewrite Htr, Htr1, <- !app_assoc. now repeat split.
Qed.

(** C2, amended: on a registered unit, a closure whose failure flag is set
    and a unit that is not alive leave the world as it is.  An alive,
    unloading unit gets, between taking and releasing the lock of its record,
    [flush_dependencies(false)] and [unlink_from_method(false)] and nothing
    else.  An alive unit that is not unloading gets, under that lock, the
    reference visitor with the healing callback, then the disarming of its
    entry barrier if the barrier set has an nmethod barrier, then
    [unload_nmethod_caches], whose failure sets the flag. *)
Theorem unlink_do_nmethod_spec cl nm n d snapshot w :
  code_heap w !! nm = Some n ->
  _gc_data n = Some d ->
  data_heap w !! d = Some {| _oops := Some snapshot |} ->
  (failed cl = true \/ is_alive n = false ->
     ZNMethodUnlinkClosure_do_nmethod cl nm w = Ok cl w) /\
  (failed cl = false -> is_alive n = true -> is_unloading n = true ->
     exists w',
       ZNMethodUnlinkClosure_do_nmethod cl nm w = Ok cl w' /\
       trace w' =
         trace w ++
         [EvLock (LockOf d); EvFlushDependencies nm false;
          EvUnlinkFromMethod nm false; EvUnlock (LockOf d)] /\
       memory w' = memory w /\ same_but_slots w w') /\
  (failed cl = false -> is_alive n = true -> is_unloading n = false ->
     exists w',
       let unloaded :=
         unload_nmethod_caches nm (_unloading_occurred cl) (ext w) in
       let visited :=
         spec_traversal nm n snapshot ZNMethodOopClosure (memory w) in
       ZNMethodUnlinkClosure_do_nmethod cl nm w =
         Ok (if unloaded.1 then cl else set_failed cl) w' /\
       trace w' =
         trace w ++ [EvLock (LockOf d)] ++ visited.1 ++
         (if barrier_set_nmethod then [EvDisarm nm] else []) ++
         [EvUnloadNMethodCaches nm (_unloading_occurred cl) unloaded.1;
          EvUnlock (LockOf d)] /\
       memory w' = visited.2 /\
       ext w' = unloaded.2 /\
       code_heap w' = code_heap w /\ data_heap w' = data_heap w /\
       table w' = table w).
Proof.
  intros Hn Hd Hsnap. split; [|split].
  - intros [Hf|Ha].
    + now apply do_nmethod_failed.
    + now apply (do_nmethod_not_alive cl nm n).
  - intros Hf Ha Hu. eexists.
    split; [now apply (do_nmethod_unloading cl nm n d)|].
    simpl. rewrite <- !app_assoc. now repeat split.
  - intros Hf Ha Hu.
    destruct (do_nmethod_alive cl nm n d snapshot w Hf Hn Hd Hsnap Ha Hu)
      as (w1 & w' & Hrun & Hdo & Htr & Hmem & Hext & Hc & Hdh & Ht).
    destruct (nmethod_oops_do_registered nm n d snapshot ZNMethodOopClosure
                (add_event (EvLock (LockOf d)) w) Hn Hd Hsnap)
      as (w1' & Hrun' & Htr1 & Hmem1 & _).
    rewrite Hrun in Hrun'. injection Hrun' as <-.
    exists w'. simpl. simpl in Htr1, Hmem1.
    rewrite Htr, Htr1, Hmem, Hmem1, <- !app_assoc. now repeat split.
Qed.

(** *** Unlink passes *)

Lemma nmethod_oops_do_inv nm cl w w' :
  nmethod_oops_do nm cl w = Ok tt w' ->
  exists n d snapshot,
    code_heap w !! nm = Some n /\ _gc_data n = Some d /\
    data_heap w !! d = Some {| _oops := Some snapshot |}.
Proof.
  unfold nmethod_oops_do. intros Hrun.
  apply bind_Ok_inv in Hrun as (n & w0 & Hderef & Hrun).
  apply deref_Ok_inv in Hderef as [-> Hn].
  apply bind_Ok_inv in Hrun as ([] & w1 & Hloop & Hrun).
  rewrite oops_table_do_immediates_do in Hloop.
  destruct (immediates_do_spec cl
              (seqZ (oops_begin n)
                 (Z.of_nat (Z.to_nat (oops_end n - oops_begin n)))) w)
    as (w1' & Hloop' & _ & _ & Hc1 & Hd1 & _).
  rewrite Hloop in Hloop'. injection Hloop' as <-.
  rewrite (bind_Ok _ _ w1 (_gc_data n) w1) in Hrun
    by (apply gc_data_Some; congruence).
  destruct (_gc_data n) as [d|] eqn:Hd; [|discriminate].
  unfold oops, bind, deref_data, ret in Hrun. rewrite Hd1 in Hrun.
  destruct (data_heap w !! d) as [[[snapshot|]]|] eqn:Hsnap;
    try discriminate.
  now exists n, d, snapshot.
Qed.

Lemma forallb_is_visit_fmap (ps : list address) :
  forallb is_visit (EvDoOop <$> ps) = true.
Proof. induction ps; simpl; auto. Qed.

Lemma spec_traversal_visits nm n snapshot cl m :
  forallb is_visit (spec_traversal nm n snapshot cl m).1 = true.
Proof.
  unfold spec_traversal.
  destruct (visit_slots cl (oops_table n) m) as [visited1 m1].
  destruct (visit_slots cl (immediates snapshot) m1) as [visited2 m2].
  destruct (has_non_immediates snapshot); simpl;
    rewrite !forallb_app, !forallb_is_visit_fmap; reflexivity.
Qed.

Lemma visits_no_release_failure (delta : list event) :
  forallb is_visit delta = true -> existsb is_release_failure delta = false.
Proof.
  induction delta as [|e delta IH]; simpl; [done|].
  intros H. apply andb_prop in H as [He Hd].
  rewrite (IH Hd). now destruct e.
Qed.

Lemma visits_no_create (delta : list event) :
  forallb is_visit delta = true -> existsb is_create delta = false.
Proof.
  induction delta as [|e delta IH]; simpl; [done|].
  intros H. apply andb_prop in H as [He Hd].
  rewrite (IH Hd). now destruct e.
Qed.

Lemma spec_traversal_no_release_failure nm n snapshot cl m :
  existsb is_release_failure (spec_traversal nm n snapshot cl m).1 = false.
Proof. apply visits_no_release_failure, spec_traversal_visits. Qed.

Lemma spec_traversal_no_create nm n snapshot cl m :
  existsb is_create (spec_traversal nm n snapshot cl m).1 = false.
Proof. apply visits_no_create, spec_traversal_visits. Qed.

(** What one call of the closure does to the flag, in terms of the calls it
    makes. *)
Lemma do_nmethod_step cl nm w cl' w' :
  ZNMethodUnlinkClosure_do_nmethod cl nm w = Ok cl' w' ->
  exists delta,
    trace w' = trace w ++ delta /\
    _unloading_occurred cl' = _unloading_occurred cl /\
    failed cl' = failed cl || existsb is_release_failure delta /\
    code_heap w' = code_heap w /\ data_heap w' = data_heap w /\
    table w' = table w /\
    (existsb is_release_failure delta = true ->
     exists n, code_heap w !! nm = Some n /\
               is_alive n = true /\ is_unloading n = false /\
               (unload_nmethod_caches nm (_unloading_occurred cl) (ext w)).1
               = false) /\
    existsb is_create delta = false.
Proof.
  intros Hrun.
  destruct (failed cl) eqn:Hf.
  { rewrite do_nmethod_failed in Hrun by done. injection Hrun as <- <-.
    exists []. rewrite app_nil_r, Hf. repeat split; done. }
  destruct (code_heap w !! nm) as [n|] eqn:Hn.
  2:{ unfold ZNMethodUnlinkClosure_do_nmethod, bind, deref in Hrun.
      now rewrite Hf, Hn in Hrun. }
  destruct (is_alive n) eqn:Ha.
  2:{ rewrite (do_nmethod_not_alive cl nm n) in Hrun by done.
      injection Hrun as <- <-.
      exists []. rewrite app_nil_r, Hf. repeat split; done. }
  destruct (is_unloading n) eqn:Hu.
  - unfold ZNMethodUnlinkClosure_do_nmethod in Hrun. rewrite Hf in Hrun.
    rewrite (bind_Ok _ _ w n w) in Hrun by now apply deref_Some.
    rewrite Ha in Hrun. simpl in Hrun.
    rewrite (bind_Ok _ _ w _ w) in Hrun by now apply (lock_for_nmethod_Some nm n).
    rewrite Hu in Hrun.
    destruct (_gc_data n) as [d|]; simpl in Hrun;
      injection Hrun as <- <-; simpl; rewrite Hf.
    + exists [EvLock (LockOf d); EvFlushDependencies nm false;
              EvUnlinkFromMethod nm false; EvUnlock (LockOf d)].
      rewrite <- !app_assoc. repeat split; done.
    + exists [EvFlushDependencies nm false; EvUnlinkFromMethod nm false].
      rewrite <- !app_assoc. repeat split; done.
  - assert (exists d snapshot, _gc_data n = Some d /\
              data_heap w !! d = Some {| _oops := Some snapshot |})
      as (d & snapshot & Hd & Hsnap).
    { unfold ZNMethodUnlinkClosure_do_nmethod in Hrun. rewrite Hf in Hrun.
      rewrite (bind_Ok _ _ w n w) in Hrun by now apply deref_Some.
      rewrite Ha in Hrun. simpl in Hrun.
      rewrite (bind_Ok _ _ w _ w) in Hrun
        by now apply (lock_for_nmethod_Some nm n).
      rewrite Hu in Hrun.
      apply bind_Ok_inv in Hrun as ([] & w0 & Hlock & Hrun).
      apply bind_Ok_inv in Hrun as ([] & w1 & Hvisit & _).
      apply nmethod_oops_do_inv in Hvisit
        as (n' & d & snapshot & Hn' & Hd & Hsnap).
      assert (code_heap w0 = code_heap w /\ data_heap w0 = data_heap w)
        as [Hc0 Hd0].
      { destruct (_gc_data n); simpl in Hlock; injection Hlock as <-; done. }
      rewrite Hc0, Hn in Hn'. injection Hn' as <-.
      rewrite Hd0 in Hsnap. eauto. }
    destruct (unlink_do_nmethod_alive_trace cl nm n d snapshot w
                Hf Hn Hd Hsnap Ha Hu)
      as (w'' & Hdo & Htr & Hc & Hdh & Ht).
    rewrite Hdo in Hrun. injection Hrun as <- <-.
    eexists. split; [exact Htr|].
    rewrite !existsb_app, spec_traversal_no_release_failure,
      spec_traversal_no_create. simpl.
    destruct (unload_nmethod_caches nm (_unloading_occurred cl) (ext w)).1
      eqn:Hok; destruct barrier_set_nmethod; simpl; rewrite ?Hf;
      repeat split; try done; eauto 10.
Qed.

Lemma nmethods_do_unlink_failed cl (entries : list nmethod_ptr) w :
  failed cl = true ->
  nmethods_do_entries ZNMethodUnlinkClosure_do_nmethod cl entries w = Ok cl w.
Proof.
  intros Hf. induction entries as [|nm entries IH]; simpl.
  - reflexivity.
  - now rewrite (bind_Ok _ _ w cl w) by now apply do_nmethod_failed.
Qed.

Lemma nmethods_do_unlink_inv (entries : list nmethod_ptr) cl w cl' w' :
  nmethods_do_entries ZNMethodUnlinkClosure_do_nmethod cl entries w
    = Ok cl' w' ->
  exists delta,
    trace w' = trace w ++ delta /\
    _unloading_occurred cl' = _unloading_occurred cl /\
    failed cl' = failed cl || existsb is_release_failure delta /\
    code_heap w' = code_heap w /\ data_heap w' = data_heap w /\
    table w' = table w /\
    (existsb is_release_failure delta = true ->
     exists nm n, nm ∈ entries /\ code_heap w !! nm = Some n /\
                  is_alive n = true /\ is_unloading n = false) /\
    existsb is_create delta = false.
Proof.
  revert cl w. induction entries as [|nm entries IH]; intros cl w; simpl.
  - intros [= <- <-]. exists []. rewrite app_nil_r, orb_false_r.
    repeat split; done.
  - intros Hrun.
    apply bind_Ok_inv in Hrun as (cl1 & w1 & Hstep & Hrun).
    apply do_nmethod_step in Hstep
      as (delta1 & Htr1 & Huo1 & Hf1 & Hc1 & Hd1 & Ht1 & Hrel1 & Hcr1).
    apply IH in Hrun
      as (delta2 & Htr2 & Huo2 & Hf2 & Hc2 & Hd2 & Ht2 & Hrel2 & Hcr2).
    exists (delta1 ++ delta2).
    rewrite Htr2, Htr1, Hf2, Hf1, !existsb_app, <- app_assoc, orb_assoc.
    rewrite Hcr1, Hcr2.
    repeat split; try congruence.
    intros Hrel. apply orb_prop in Hrel as [Hrel|Hrel].
    + destruct (Hrel1 Hrel) as (n & Hn & Ha & Hu & _).
      exists nm, n. repeat split; try done. left.
    + destruct (Hrel2 Hrel) as (nm' & n & Hin & Hn & Ha & Hu).
      exists nm', n. rewrite <- Hc1. repeat split; try done. now right.
Qed.

Lemma unlink_task_inv unloading_occurred w b w' :
  unlink_task unloading_occurred w = Ok b w' ->
  exists delta,
    trace w' = trace w ++ [EvNMethodsDoBegin] ++ delta ++ [EvNMethodsDoEnd] /\
    b = negb (existsb is_release_failure delta) /\
    code_heap w' = code_heap w /\ data_heap w' = data_heap w /\
    table w' = table w /\
    (b = false ->
     exists nm n, nm ∈ table w /\ code_heap w !! nm = Some n /\
                  is_alive n = true /\ is_unloading n = false) /\
    existsb is_create delta = false.
Proof.
  unfold unlink_task. intros Hrun.
  unfold bind at 1 in Hrun. simpl in Hrun.
  apply bind_Ok_inv in Hrun as (cl' & w1 & Hpass & Hrun).
  unfold ZNMethodTable_nmethods_do in Hpass. simpl in Hpass.
  apply nmethods_do_unlink_inv in Hpass
    as (delta & Htr & _ & Hf & Hc & Hd & Ht & Hrel & Hcr).
  simpl in *. injection Hrun as <- <-. simpl.
  exists delta. rewrite Htr, Hf, <- !app_assoc.
  repeat split; try done.
  intros Hb. apply negb_false_iff in Hb. now apply Hrel.
Qed.

Lemma nmethods_do_unlink_all_unloading (entries : list nmethod_ptr) cl w :
  failed cl = false ->
  (forall nm, nm ∈ entries ->
     exists n d, code_heap w !! nm = Some n /\ _gc_data n = Some d /\
                 (is_alive n = true -> is_unloading n = true)) ->
  exists w',
    nmethods_do_entries ZNMethodUnlinkClosure_do_nmethod cl entries w
      = Ok cl w' /\
    code_heap w' = code_heap w.
Proof.
  intros Hf. revert w. induction entries as [|nm entries IH]; intros w Hall.
  - now exists w.
  - destruct (Hall nm) as (n & d & Hn & Hd & Hu); [left|].
    assert (exists w1, ZNMethodUnlinkClosure_do_nmethod cl nm w = Ok cl w1 /\
                       code_heap w1 = code_heap w) as (w1 & Hstep & Hc1).
    { destruct (is_alive n) eqn:Ha.
      - eexists. split; [now apply (do_nmethod_unloading cl nm n d); auto|].
        reflexivity.
      - exists w. split; [now apply (do_nmethod_not_alive cl nm n)|done]. }
    destruct (IH w1) as (w' & Hrun & Hc).
    { intros nm' Hin. rewrite Hc1. apply Hall. now right. }
    exists w'. simpl. rewrite (bind_Ok _ _ w cl w1) by done.
    split; [done|congruence].
Qed.

Lemma unlink_task_all_unloading unloading_occurred w :
  (forall nm, nm ∈ table w ->
     exists n d, code_heap w !! nm = Some n /\ _gc_data n = Some d /\
                 (is_alive n = true -> is_unloading n = true)) ->
  exists w', unlink_task unloading_occurred w = Ok true w'.
Proof.
  intros Hall. unfold unlink_task.
  unfold bind at 1. simpl.
  destruct (nmethods_do_unlink_all_unloading (table w)
              {| _unloading_occurred := unloading_occurred; _failed := false |}
              (add_event EvNMethodsDoBegin w) eq_refl Hall)
    as (w1 & Hpass & _).
  unfold ZNMethodTable_nmethods_do at 1.
  rewrite (bind_Ok _ _ _ _ w1) by exact Hpass.
  simpl. eexists. reflexivity.
Qed.

Lemma unlink_returns_inv fuel unloading_occurred w w' :
  unlink fuel unloading_occurred w = Some (Ok tt w') ->
  exists k wk,
    (k < fuel)%nat /\
    failed_passes k unloading_occurred w = Some wk /\
    unlink_task unloading_occurred wk = Ok true w'.
Proof.
  revert w. induction fuel as [|fuel IH]; intros w; simpl; [discriminate|].
  destruct (unlink_task unloading_occurred w) as [[] w1| |] eqn:Htask;
    try discriminate.
  - intros [= <-]. exists 0%nat, w. split; [lia|]. now split.
  - intros Hrun. apply IH in Hrun as (k & wk & Hk & Hpasses & Hlast).
    exists (S k), wk. split; [lia|]. simpl. now rewrite Htask.
Qed.

Lemma unlink_enough_fuel k unloading_occurred w wk w' fuel :
  failed_passes k unloading_occurred w = Some wk ->
  unlink_task unloading_occurred wk = Ok true w' ->
  (k < fuel)%nat ->
  unlink fuel unloading_occurred w = Some (Ok tt w').
Proof.
  revert w fuel. induction k as [|k IH]; intros w fuel; simpl.
  - intros [= <-] Hlast Hfuel.
    destruct fuel as [|fuel]; [lia|]. simpl. now rewrite Hlast.
  - destruct (unlink_task unloading_occurred w) as [[] w1| |] eqn:Htask;
      try discriminate.
    intros Hpasses Hlast Hfuel.
    destruct fuel as [|fuel]; [lia|]. simpl. rewrite Htask.
    apply IH; [done|done|lia].
Qed.

(** C3: [unlink] returns only out of a turn whose task succeeded, that is,
    a pass in which no cache release reported failure; the turns before it
    all failed.  A task fails iff some cache release of that very pass
    failed; once the flag is set the remaining units are skipped.  After a
    failed task the loop leaves the suspendible thread set, refills the
    stub pool, rejoins and runs the whole task again, and it returns as soon
    as one task succeeds. *)
Theorem unlink_retries_until_success unloading_occurred w :
  (forall fuel w',
     unlink fuel unloading_occurred w = Some (Ok tt w') ->
     exists k wk delta,
       (k < fuel)%nat /\
       failed_passes k unloading_occurred w = Some wk /\
       unlink_task unloading_occurred wk = Ok true w' /\
       trace w' =
         trace wk ++ [EvNMethodsDoBegin] ++ delta ++ [EvNMethodsDoEnd] /\
       existsb is_release_failure delta = false) /\
  (forall k wk w' fuel,
     failed_passes k unloading_occurred w = Some wk ->
     unlink_task unloading_occurred wk = Ok true w' ->
     (k < fuel)%nat ->
     unlink fuel unloading_occurred w = Some (Ok tt w')) /\
  (forall b w1,
     unlink_task unloading_occurred w = Ok b w1 ->
     exists delta,
       trace w1 =
         trace w ++ [EvNMethodsDoBegin] ++ delta ++ [EvNMethodsDoEnd] /\
       b = negb (existsb is_release_failure delta)) /\
  (forall cl entries,
     failed cl = true ->
     nmethods_do_entries ZNMethodUnlinkClosure_do_nmethod cl entries w
       = Ok cl w) /\
  (forall w1 fuel,
     unlink_task unloading_occurred w = Ok false w1 ->
     unlink (S fuel) unloading_occurred w =
     unlink fuel unloading_occurred
       (add_event EvSTSJoin
          (add_event EvRefillICStubs
             (set_ext (refill_ic_stubs (ext w1))
                (add_event EvSTSLeave w1))))).
Proof.
  split; [|split; [|split; [|split]]].
  - intros fuel w' Hrun.
    apply unlink_returns_inv in Hrun as (k & wk & Hk & Hpasses & Hlast).
    destruct (unlink_task_inv _ _ _ _ Hlast) as (delta & Htr & Hb & _).
    exists k, wk, delta. repeat split; try done.
    symmetry in Hb. now apply negb_true_iff in Hb.
  - intros k wk w' fuel. apply unlink_enough_fuel.
  - intros b w1 Htask.
    destruct (unlink_task_inv _ _ _ _ Htask) as (delta & Htr & Hb & _).
    now exists delta.
  - intros cl entries. apply nmethods_do_unlink_failed.
  - intros w1 fuel Htask. simpl. now rewrite Htask.
Qed.

(** C10: a unit that is unloading leaves the failure flag as it found it.
    The flag goes from unset to set only on a unit that is alive and not
    unloading and whose cache release failed.  So a pass over registered
    units of which every alive one is unloading succeeds, and [unlink]
    returns after that first pass. *)
Theorem unloading_units_never_fail_the_pass :
  (forall cl nm n w cl' w',
     code_heap w !! nm = Some n -> is_unloading n = true ->
     ZNMethodUnlinkClosure_do_nmethod cl nm w = Ok cl' w' ->
     failed cl' = failed cl) /\
  (forall cl nm w cl' w',
     ZNMethodUnlinkClosure_do_nmethod cl nm w = Ok cl' w' ->
     failed cl = false -> failed cl' = true ->
     exists n, code_heap w !! nm = Some n /\
               is_alive n = true /\ is_unloading n = false /\
               (unload_nmethod_caches nm (_unloading_occurred cl) (ext w)).1
               = false) /\
  (forall unloading_occurred w,
     (forall nm, nm ∈ table w ->
        exists n d, code_heap w !! nm = Some n /\ _gc_data n = Some d /\
                    (is_alive n = true -> is_unloading n = true)) ->
     exists w',
       unlink_task unloading_occurred w = Ok true w' /\
       forall fuel,
         unlink (S fuel) unloading_occurred w = Some (Ok tt w')).
Proof.
  split; [|split].
  - intros cl nm n w cl' w' Hn Hu Hrun.
    apply do_nmethod_step in Hrun
      as (delta & _ & _ & Hf & _ & _ & _ & Hrel & _).
    rewrite Hf.
    destruct (existsb is_release_failure delta); [|apply orb_false_r].
    destruct (Hrel eq_refl) as (n' & Hn' & _ & Hu' & _). congruence.
  - intros cl nm w cl' w' Hrun Hf Hf'.
    apply do_nmethod_step in Hrun
      as (delta & _ & _ & Hfl & _ & _ & _ & Hrel & _).
    apply Hrel. rewrite Hf, Hf' in Hfl. now rewrite Hfl.
  - intros unloading_occurred w Hall.
    destruct (unlink_task_all_unloading unloading_occurred w Hall)
      as (w' & Htask).
    exists w'. split; [done|]. intros fuel. simpl. now rewrite Htask.
Qed.

(** *** Purge *)

Lemma purge_do_nmethod_Some nm n w :
  code_heap w !! nm = Some n ->
  ZNMethodPurgeClosure_do_nmethod tt nm w =
  Ok tt (if is_alive n && is_unloading n
         then set_code_heap (<[nm := with_is_alive n false]> (code_heap w))
                (add_event (EvMakeUnloaded nm) w)
         else w).
Proof.
  intros Hn. unfold ZNMethodPurgeClosure_do_nmethod.
  rewrite (bind_Ok _ _ w n w) by now apply deref_Some.
  destruct (is_alive n && is_unloading n); [|reflexivity].
  unfold nm_make_unloaded.
  now rewrite (bind_Ok _ _ w n w) by now apply deref_Some.
Qed.

Lemma nmethods_do_purge (entries : list nmethod_ptr) w :
  NoDup entries ->
  (forall nm, nm ∈ entries -> is_Some (code_heap w !! nm)) ->
  exists w',
    nmethods_do_entries ZNMethodPurgeClosure_do_nmethod tt entries w
      = Ok tt w' /\
    trace w' =
      trace w ++ (EvMakeUnloaded <$> List.filter (purge_selected w) entries) /\
    (forall nm,
       code_heap w' !! nm
       = purged (bool_decide (nm ∈ entries)) <$> code_heap w !! nm) /\
    memory w' = memory w /\ data_heap w' = data_heap w /\
    table w' = table w /\ ext w' = ext w.
Proof.
  intros Hnodup. revert w.
  induction Hnodup as [|nm0 entries Hnotin Hnodup IH]; intros w Hvalid.
  - exists w. simpl. rewrite app_nil_r. repeat split; try done.
    intros nm. unfold purged. simpl.
    destruct (code_heap w !! nm); reflexivity.
  - destruct (Hvalid nm0) as [n0 Hn0]; [left|].
    pose proof (purge_do_nmethod_Some nm0 n0 w Hn0) as Hstep.
    set (w1 := if is_alive n0 && is_unloading n0
               then set_code_heap (<[nm0 := with_is_alive n0 false]> (code_heap w))
                      (add_event (EvMakeUnloaded nm0) w)
               else w) in Hstep.
    assert (forall nm, nm ≠ nm0 -> code_heap w1 !! nm = code_heap w !! nm)
      as Hother.
    { intros nm Hne. subst w1.
      destruct (is_alive n0 && is_unloading n0); [|done].
      simpl. now rewrite lookup_insert_ne. }
    assert (code_heap w1 !! nm0 = Some (purged true n0)) as Hsame.
    { subst w1. unfold purged. simpl.
      destruct (is_alive n0 && is_unloading n0); [|done].
      simpl. now rewrite lookup_insert_eq. }
    destruct (IH w1) as (w' & Hrun & Htr & Hheap & Hmem & Hdh & Ht & He).
    { intros nm Hin. rewrite Hother; [apply Hvalid; now right|].
      intros ->. contradiction. }
    exists w'. simpl nmethods_do_entries.
    rewrite (bind_Ok _ _ w tt w1) by exact Hstep.
    split; [done|].
    assert (List.filter (purge_selected w1) entries
            = List.filter (purge_selected w) entries) as Hfilter.
    { apply filter_ext_in. intros nm Hin. unfold purge_selected.
      rewrite Hother; [done|]. intros ->.
      apply Hnotin. now apply list_elem_of_In. }
    split; [|split].
    + rewrite Htr, Hfilter. simpl List.filter. unfold purge_selected at 2.
      rewrite Hn0. subst w1.
      destruct (is_alive n0 && is_unloading n0); simpl;
        now rewrite <- ?app_assoc.
    + intros nm. rewrite Hheap.
      destruct (decide (nm = nm0)) as [->|Hne].
      * rewrite Hsame, Hn0. simpl.
        rewrite (bool_decide_eq_false_2 _ Hnotin).
        rewrite bool_decide_eq_true_2 by left. reflexivity.
      * rewrite Hother by done.
        destruct (code_heap w !! nm) as [n|]; [|done]. simpl. do 2 f_equal.
        apply bool_decide_ext. rewrite elem_of_cons. tauto.
    + subst w1.
      destruct (is_alive n0 && is_unloading n0); simpl in *;
        repeat split; congruence.
Qed.

Lemma purge_run w :
  NoDup (table w) ->
  (forall nm, nm ∈ table w -> is_Some (code_heap w !! nm)) ->
  exists w',
    purge w = Ok tt w' /\
    trace w' =
      trace w ++ [EvNMethodsDoBegin] ++
      (EvMakeUnloaded <$> List.filter (purge_selected w) (table w)) ++
      [EvNMethodsDoEnd] /\
    (forall nm,
       code_heap w' !! nm
       = purged (bool_decide (nm ∈ table w)) <$> code_heap w !! nm) /\
    memory w' = memory w /\ data_heap w' = data_heap w /\
    table w' = table w /\ ext w' = ext w.
Proof.
  intros Hnodup Hvalid.
  destruct (nmethods_do_purge (table w) (add_event EvNMethodsDoBegin w)
              Hnodup Hvalid)
    as (w1 & Hrun & Htr & Hheap & Hmem & Hdh & Ht & He).
  unfold purge.
  unfold bind at 1. simpl.
  unfold ZNMethodTable_nmethods_do at 1.
  rewrite (bind_Ok _ _ _ tt w1) by exact Hrun.
  eexists. split; [reflexivity|]. simpl in *.
  split; [now rewrite Htr, <- !app_assoc|].
  split; [exact Hheap|]. repeat split; congruence.
Qed.

(** C8: [purge] makes one scan of the table, without any retry; in it
    [make_unloaded] is called on the registered units that are alive and
    unloading, and on these only, and they are no longer alive afterwards;
    every other unit, the slots, the metadata records and the table are left
    as they were. *)
Theorem purge_finalizes_unloading_units w :
  NoDup (table w) ->
  (forall nm, nm ∈ table w -> is_Some (code_heap w !! nm)) ->
  exists w',
    purge w = Ok tt w' /\
    trace w' =
      trace w ++ [EvNMethodsDoBegin] ++
      (EvMakeUnloaded <$> List.filter (purge_selected w) (table w)) ++
      [EvNMethodsDoEnd] /\
    (forall nm n,
       code_heap w !! nm = Some n ->
       (nm ∈ table w -> is_alive n = true -> is_unloading n = true ->
        code_heap w' !! nm = Some (with_is_alive n false)) /\
       (nm ∉ table w \/ is_alive n = false \/ is_unloading n = false ->
        code_heap w' !! nm = Some n)) /\
    (forall nm, code_heap w !! nm = None -> code_heap w' !! nm = None) /\
    memory w' = memory w /\ data_heap w' = data_heap w /\
    table w' = table w /\ ext w' = ext w.
Proof.
  intros Hnodup Hvalid.
  destruct (purge_run w Hnodup Hvalid)
    as (w' & Hrun & Htr & Hheap & Hmem & Hdh & Ht & He).
  exists w'. split; [done|].
  split; [|split; [|split]].
  - exact Htr.
  - intros nm n Hn. rewrite Hheap, Hn. simpl. unfold purged. split.
    + intros Hin Ha Hu.
      now rewrite (bool_decide_eq_true_2 _ Hin), Ha, Hu.
    + intros [Hin|[Ha|Hu]].
      * now rewrite (bool_decide_eq_false_2 _ Hin).
      * now rewrite Ha, andb_false_r.
      * now rewrite Hu, andb_false_r.
  - intros nm Hn. now rewrite Hheap, Hn.
  - repeat split; congruence.
Qed.

(** *** Registration and the attachment invariant *)

Lemma creations_app nm (tr delta : list event) :
  creations nm (tr ++ delta) = (creations nm tr + creations nm delta)%nat.
Proof. unfold creations. now rewrite List.filter_app, List.length_app. Qed.

Lemma creations_no_create nm (delta : list event) :
  existsb is_create delta = false -> creations nm delta = 0%nat.
Proof.
  unfold creations. induction delta as [|e delta IH]; simpl; [done|].
  intros H. apply orb_false_elim in H as [He Hd].
  destruct e; simpl in *; try discriminate; now apply IH.
Qed.

Lemma creations_make_unloaded nm (l : list nmethod_ptr) :
  creations nm (EvMakeUnloaded <$> l) = 0%nat.
Proof. induction l as [|x l IH]; [reflexivity|exact IH]. Qed.

Lemma well_formed_transfer w w' :
  table w' = table w ->
  data_heap w' = data_heap w ->
  (forall nm, _gc_data <$> code_heap w' !! nm = _gc_data <$> code_heap w !! nm) ->
  well_formed w -> well_formed w'.
Proof.
  intros Ht Hd Hc Hwf.
  assert (forall nm n', code_heap w' !! nm = Some n' ->
            exists n, code_heap w !! nm = Some n /\ _gc_data n = _gc_data n')
    as Hback.
  { intros nm n' Hn'. specialize (Hc nm). rewrite Hn' in Hc. simpl in Hc.
    destruct (code_heap w !! nm) as [n|]; [|discriminate].
    exists n. split; [done|]. simpl in Hc. congruence. }
  assert (forall nm n, code_heap w !! nm = Some n ->
            exists n', code_heap w' !! nm = Some n' /\ _gc_data n' = _gc_data n)
    as Hforth.
  { intros nm n Hn. specialize (Hc nm). rewrite Hn in Hc. simpl in Hc.
    destruct (code_heap w' !! nm) as [n'|]; [|discriminate].
    exists n'. split; [done|]. simpl in Hc. congruence. }
  split.
  - intros nm Hin. rewrite Ht in Hin.
    destruct (wf_table_valid w Hwf nm Hin) as [n Hn].
    destruct (Hforth nm n Hn) as (n' & Hn' & _). eauto.
  - rewrite Ht. apply (wf_table_NoDup w Hwf).
  - intros nm n' Hn'. destruct (Hback nm n' Hn') as (n & Hn & Hg).
    rewrite Ht, <- Hg. now apply (wf_attached w Hwf).
  - intros nm n' d Hn' Hd'. destruct (Hback nm n' Hn') as (n & Hn & Hg).
    rewrite Hd. apply (wf_data_valid w Hwf nm n d Hn). congruence.
  - intros d Hsome. rewrite Hd in Hsome.
    destruct (wf_data_owned w Hwf d Hsome) as (nm & n & Hn & Hg).
    destruct (Hforth nm n Hn) as (n' & Hn' & Hg').
    exists nm, n'. split; [done|congruence].
  - intros nm1 nm2 n1' n2' d Hn1' Hn2' Hg1 Hg2.
    destruct (Hback nm1 n1' Hn1') as (n1 & Hn1 & Hg1').
    destruct (Hback nm2 n2' Hn2') as (n2 & Hn2 & Hg2').
    apply (wf_data_unshared w Hwf nm1 nm2 n1 n2 d); congruence.
Qed.

Lemma fresh_data_None (h : gmap data_ptr ZNMethodData) :
  h !! fresh_data h = None.
Proof. apply not_elem_of_dom. unfold fresh_data. apply is_fresh. Qed.

Lemma register_nmethod_fresh nm n w :
  code_heap w !! nm = Some n ->
  _gc_data n = None ->
  exists w',
    register_nmethod nm w = Ok tt w' /\
    code_heap w' =
      <[nm := with_gc_data n (Some (fresh_data (data_heap w)))]> (code_heap w) /\
    data_heap w' =
      <[fresh_data (data_heap w) := {| _oops := Some (spec_snapshot n) |}]>
        (data_heap w) /\
    table w' = (if decide (nm ∈ table w) then table w else table w ++ [nm]) /\
    trace w' =
      trace w ++
      [EvDataCreate nm (fresh_data (data_heap w));
       EvOopsCreate (spec_snapshot n); EvOopsDestroy None;
       EvTableRegister nm] ++
      (if barrier_set_nmethod then [EvDisarm nm] else []) /\
    memory w' = memory w /\ ext w' = ext w.
Proof.
  intros Hn Hd. unfold register_nmethod.
  rewrite (bind_Ok _ _ w tt _ (attach_gc_data_fresh nm n w Hn Hd)).
  unfold bind, ZNMethodTable_register_nmethod, disarm_nmethod. simpl.
  destruct barrier_set_nmethod; simpl;
    (eexists; split; [reflexivity|]); simpl;
    rewrite insert_insert_eq, <- !app_assoc; repeat split; done.
Qed.

Lemma register_nmethod_attached nm n d rec w :
  code_heap w !! nm = Some n ->
  _gc_data n = Some d ->
  data_heap w !! d = Some rec ->
  exists w',
    register_nmethod nm w = Ok tt w' /\
    code_heap w' = code_heap w /\
    data_heap w' =
      <[d := {| _oops := Some (spec_snapshot n) |}]> (data_heap w) /\
    table w' = (if decide (nm ∈ table w) then table w else table w ++ [nm]) /\
    trace w' =
      trace w ++
      [EvOopsCreate (spec_snapshot n); EvOopsDestroy (_oops rec);
       EvTableRegister nm] ++
      (if barrier_set_nmethod then [EvDisarm nm] else []) /\
    memory w' = memory w /\ ext w' = ext w.
Proof.
  intros Hn Hd Hrec. unfold register_nmethod.
  rewrite (bind_Ok _ _ w tt _ (attach_gc_data_attached nm n d rec w Hn Hd Hrec)).
  unfold bind, ZNMethodTable_register_nmethod, disarm_nmethod. simpl.
  destruct barrier_set_nmethod; simpl;
    (eexists; split; [reflexivity|]); simpl;
    rewrite <- !app_assoc; repeat split; done.
Qed.

Lemma well_formed_register_fresh nm n w w' :
  well_formed w ->
  code_heap w !! nm = Some n ->
  _gc_data n = None ->
  code_heap w' =
    <[nm := with_gc_data n (Some (fresh_data (data_heap w)))]> (code_heap w) ->
  data_heap w' =
    <[fresh_data (data_heap w) := {| _oops := Some (spec_snapshot n) |}]>
      (data_heap w) ->
  table w' = table w ++ [nm] ->
  well_formed w'.
Proof.
  intros Hwf Hn Hg Hc Hd Ht.
  pose proof (fresh_data_None (data_heap w)) as Hfresh.
  set (d := fresh_data (data_heap w)) in *.
  assert (nm ∉ table w) as Hnotin.
  { intros Hin. apply (wf_attached w Hwf nm n Hn) in Hin as [d' Hd'].
    congruence. }
  assert (forall nm' n' d', code_heap w !! nm' = Some n' ->
            _gc_data n' = Some d' -> d' ≠ d) as Hold.
  { intros nm' n' d' Hn' Hg' ->.
    destruct (wf_data_valid w Hwf nm' n' d Hn' Hg') as [snap Hsnap].
    congruence. }
  split.
  - intros nm' Hin. rewrite Ht, elem_of_app, list_elem_of_singleton in Hin.
    rewrite Hc. destruct (decide (nm' = nm)) as [->|Hne].
    + rewrite lookup_insert_eq. eauto.
    + rewrite lookup_insert_ne by done.
      destruct Hin as [Hin|Hin]; [|done]. now apply (wf_table_valid w Hwf).
  - rewrite Ht. apply NoDup_app. split; [apply (wf_table_NoDup w Hwf)|].
    split; [|apply NoDup_singleton].
    intros x Hx Hx'. apply list_elem_of_singleton in Hx'. now subst.
  - intros nm' n' Hn'. rewrite Ht, elem_of_app, list_elem_of_singleton.
    rewrite Hc in Hn'. destruct (decide (nm' = nm)) as [->|Hne].
    + rewrite lookup_insert_eq in Hn'. injection Hn' as <-. simpl.
      split; eauto.
    + rewrite lookup_insert_ne in Hn' by done.
      rewrite (wf_attached w Hwf nm' n' Hn'). tauto.
  - intros nm' n' d' Hn' Hg'. rewrite Hd. rewrite Hc in Hn'.
    destruct (decide (nm' = nm)) as [->|Hne].
    + rewrite lookup_insert_eq in Hn'. injection Hn' as <-. simpl in Hg'.
      injection Hg' as <-. rewrite lookup_insert_eq. eauto.
    + rewrite lookup_insert_ne in Hn' by done.
      rewrite lookup_insert_ne by (symmetry; now apply (Hold nm' n')).
      now apply (wf_data_valid w Hwf nm' n').
  - intros d' Hsome. rewrite Hd in Hsome. rewrite Hc.
    destruct (decide (d' = d)) as [->|Hne].
    + exists nm, (with_gc_data n (Some d)). now rewrite lookup_insert_eq.
    + rewrite lookup_insert_ne in Hsome by done.
      destruct (wf_data_owned w Hwf d' Hsome) as (nm0 & n0 & Hn0 & Hg0).
      exists nm0, n0. split; [|done].
      rewrite lookup_insert_ne; [done|]. intros <-. congruence.
  - intros nm1 nm2 n1 n2 d0 Hn1 Hn2 Hg1 Hg2. rewrite Hc in Hn1, Hn2.
    destruct (decide (nm1 = nm)) as [->|Hne1];
      destruct (decide (nm2 = nm)) as [->|Hne2]; [done| | |].
    + rewrite lookup_insert_eq in Hn1. injection Hn1 as <-.
      rewrite lookup_insert_ne in Hn2 by done. simpl in Hg1.
      injection Hg1 as <-. now destruct (Hold nm2 n2 d Hn2 Hg2).
    + rewrite lookup_insert_eq in Hn2. injection Hn2 as <-.
      rewrite lookup_insert_ne in Hn1 by done. simpl in Hg2.
      injection Hg2 as <-. now destruct (Hold nm1 n1 d Hn1 Hg1).
    + rewrite lookup_insert_ne in Hn1, Hn2 by done.
      now apply (wf_data_unshared w Hwf nm1 nm2 n1 n2 d0).
Qed.

Lemma well_formed_register_attached nm n d w w' :
  well_formed w ->
  code_heap w !! nm = Some n ->
  _gc_data n = Some d ->
  code_heap w' = code_heap w ->
  data_heap w' =
    <[d := {| _oops := Some (spec_snapshot n) |}]> (data_heap w) ->
  table w' = table w ->
  well_formed w'.
Proof.
  intros Hwf Hn Hg Hc Hd Ht. split.
  - intros nm'. rewrite Ht, Hc. apply (wf_table_valid w Hwf).
  - rewrite Ht. apply (wf_table_NoDup w Hwf).
  - intros nm' n'. rewrite Ht, Hc. apply (wf_attached w Hwf).
  - intros nm' n' d' Hn' Hg'. rewrite Hc in Hn'. rewrite Hd.
    destruct (decide (d' = d)) as [->|Hne].
    + rewrite lookup_insert_eq. eauto.
    + rewrite lookup_insert_ne by done.
      now apply (wf_data_valid w Hwf nm' n').
  - intros d' Hsome. rewrite Hd in Hsome. rewrite Hc.
    destruct (decide (d' = d)) as [->|Hne]; [eauto|].
    rewrite lookup_insert_ne in Hsome by done.
    now apply (wf_data_owned w Hwf).
  - rewrite Hc. apply (wf_data_unshared w Hwf).
Qed.

Lemma well_formed_unregister nm n w w' :
  well_formed w ->
  code_heap w !! nm = Some n ->
  code_heap w' = <[nm := with_gc_data n None]> (code_heap w) ->
  data_heap w' = match _gc_data n with
                 | Some d => delete d (data_heap w)
                 | None => data_heap w
                 end ->
  table w' = filter (fun x => x ≠ nm) (table w) ->
  well_formed w'.
Proof.
  intros Hwf Hn Hc Hd Ht.
  assert (forall nm' n' d', code_heap w' !! nm' = Some n' ->
            _gc_data n' = Some d' ->
            nm' ≠ nm /\ code_heap w !! nm' = Some n') as Hback.
  { intros nm' n' d' Hn' Hg'. rewrite Hc in Hn'.
    destruct (decide (nm' = nm)) as [->|Hne].
    - rewrite lookup_insert_eq in Hn'. injection Hn' as <-. discriminate.
    - now rewrite lookup_insert_ne in Hn' by done. }
  assert (forall nm' n' d', nm' ≠ nm -> code_heap w !! nm' = Some n' ->
            _gc_data n' = Some d' ->
            data_heap w' !! d' = data_heap w !! d') as Hkept.
  { intros nm' n' d' Hne Hn' Hg'. rewrite Hd.
    destruct (_gc_data n) as [d|] eqn:Hg; [|done].
    rewrite lookup_delete_ne; [done|]. intros ->.
    apply Hne. symmetry.
    now apply (wf_data_unshared w Hwf nm nm' n n' d'). }
  split.
  - intros nm' Hin. rewrite Ht in Hin.
    apply list_elem_of_filter in Hin as [Hne Hin].
    rewrite Hc, lookup_insert_ne by done. now apply (wf_table_valid w Hwf).
  - rewrite Ht. apply NoDup_filter, (wf_table_NoDup w Hwf).
  - intros nm' n' Hn'. rewrite Ht, list_elem_of_filter. rewrite Hc in Hn'.
    destruct (decide (nm' = nm)) as [->|Hne].
    + rewrite lookup_insert_eq in Hn'. injection Hn' as <-. simpl.
      split; [intros [? ?]; discriminate|intros [? _]; done].
    + rewrite lookup_insert_ne in Hn' by done.
      rewrite (wf_attached w Hwf nm' n' Hn'). tauto.
  - intros nm' n' d' Hn' Hg'.
    destruct (Hback nm' n' d' Hn' Hg') as [Hne Hn0].
    rewrite (Hkept nm' n' d' Hne Hn0 Hg').
    now apply (wf_data_valid w Hwf nm' n').
  - intros d' Hsome.
    assert (is_Some (data_heap w !! d') /\ _gc_data n ≠ Some d')
      as [Hsome0 Hnot].
    { rewrite Hd in Hsome. destruct (_gc_data n) as [d|] eqn:Hg.
      - destruct (decide (d' = d)) as [->|Hne].
        + rewrite lookup_delete_eq in Hsome. now destruct Hsome.
        + rewrite lookup_delete_ne in Hsome by done.
          split; [done|congruence].
      - split; [done|discriminate]. }
    destruct (wf_data_owned w Hwf d' Hsome0) as (nm0 & n0 & Hn0 & Hg0).
    exists nm0, n0. split; [|done].
    rewrite Hc, lookup_insert_ne; [done|]. intros <-. congruence.
  - intros nm1 nm2 n1 n2 d0 Hn1 Hn2 Hg1 Hg2.
    destruct (Hback nm1 n1 d0 Hn1 Hg1) as [_ Hn1'].
    destruct (Hback nm2 n2 d0 Hn2 Hg2) as [_ Hn2'].
    now apply (wf_data_unshared w Hwf nm1 nm2 n1 n2 d0).
Qed.

Lemma nmethods_do_oops_do_inv (entries : list nmethod_ptr) cl w cl' w' :
  nmethods_do_entries ZNMethodToOopsDoClosure_do_nmethod cl entries w
    = Ok cl' w' ->
  same_but_slots w w' /\
  exists delta, trace w' = trace w ++ delta /\ forallb is_visit delta = true.
Proof.
  revert w. induction entries as [|nm entries IH]; intros w; simpl.
  - intros [= <- <-]. split; [apply same_but_slots_refl|].
    exists []. now rewrite app_nil_r.
  - intros Hrun. apply bind_Ok_inv in Hrun as (cl1 & w1 & Hstep & Hrun).
    unfold ZNMethodToOopsDoClosure_do_nmethod in Hstep.
    apply bind_Ok_inv in Hstep as ([] & w1' & Hvisit & Hret).
    injection Hret as <- <-.
    destruct (nmethod_oops_do_inv _ _ _ _ Hvisit)
      as (n & d & snapshot & Hn & Hd & Hsnap).
    destruct (nmethod_oops_do_registered nm n d snapshot cl w Hn Hd Hsnap)
      as (w1 & Hvisit' & Htr1 & _ & Hsame1).
    rewrite Hvisit in Hvisit'. injection Hvisit' as <-.
    apply IH in Hrun as (Hsame2 & delta2 & Htr2 & Hvis2).
    split; [now apply (same_but_slots_trans w w1' w')|].
    eexists. rewrite Htr2, Htr1, <- app_assoc. split; [reflexivity|].
    now rewrite forallb_app, spec_traversal_visits, Hvis2.
Qed.

Lemma unlink_frame fuel unloading_occurred w w' :
  unlink fuel unloading_occurred w = Some (Ok tt w') ->
  code_heap w' = code_heap w /\ data_heap w' = data_heap w /\
  table w' = table w /\
  exists delta, trace w' = trace w ++ delta /\ existsb is_create delta = false.
Proof.
  revert w. induction fuel as [|fuel IH]; intros w; simpl; [discriminate|].
  destruct (unlink_task unloading_occurred w) as [[] w1| |] eqn:Htask;
    try discriminate;
    apply unlink_task_inv in Htask
      as (delta1 & Htr1 & _ & Hc1 & Hd1 & Ht1 & _ & Hcr1).
  - intros [= <-]. repeat split; try done.
    eexists. split; [exact Htr1|].
    simpl. now rewrite existsb_app, Hcr1.
  - intros Hrun. apply IH in Hrun as (Hc & Hd & Ht & delta & Htr & Hcr).
    simpl in *. repeat split; try congruence.
    eexists. rewrite Htr, Htr1, <- !app_assoc. split; [reflexivity|].
    simpl. rewrite !existsb_app, Hcr1. simpl. exact Hcr.
Qed.

Lemma register_nmethod_Ok_inv nm w w' :
  register_nmethod nm w = Ok tt w' -> is_Some (code_heap w !! nm).
Proof.
  unfold register_nmethod, attach_gc_data. intros Hrun.
  apply bind_Ok_inv in Hrun as ([] & w1 & Hattach & _).
  apply bind_Ok_inv in Hattach as (n & w0 & Hderef & _).
  apply deref_Ok_inv in Hderef as [_ Hn]. eauto.
Qed.

Lemma unregister_nmethod_Ok_inv self nm w w' :
  unregister_nmethod self nm w = Ok tt w' ->
  owns_CodeCache_lock self = true /\ is_Some (code_heap w !! nm).
Proof.
  intros Hrun. destruct (owns_CodeCache_lock self) eqn:Hl.
  2:{ now rewrite unregister_nmethod_unlocked in Hrun. }
  split; [done|].
  unfold unregister_nmethod in Hrun.
  apply bind_Ok_inv in Hrun as ([] & w1 & Hassert & Hrun).
  unfold assert in Hassert. rewrite Hl in Hassert. injection Hassert as <-.
  apply bind_Ok_inv in Hrun as ([] & w2 & Hwait & Hrun).
  apply bind_Ok_inv in Hrun as ([] & w3 & Hremove & Hrun).
  unfold detach_gc_data, gc_data in Hrun.
  apply bind_Ok_inv in Hrun as (data & w4 & Hdata & _).
  apply bind_Ok_inv in Hdata as (n & w5 & Hderef & _).
  apply deref_Ok_inv in Hderef as [-> Hn].
  injection Hremove as <-. simpl in Hn.
  destruct (is_Code_cache_sweeper_thread self); injection Hwait as <-; eauto.
Qed.

Lemma registered_le_1 w nm : (registered w nm <= 1)%nat.
Proof. unfold registered. destruct (bool_decide (nm ∈ table w)); lia. Qed.

Lemma registered_filter_ne nm nm0 w w' :
  nm0 ≠ nm ->
  table w' = filter (fun x => x ≠ nm0) (table w) ->
  registered w' nm = registered w nm.
Proof.
  intros Hne Ht. unfold registered. rewrite Ht.
  apply (f_equal (fun b : bool => if b then 1%nat else 0%nat)).
  apply bool_decide_ext. rewrite list_elem_of_filter.
  split; [tauto|]. intros Hin. split; [congruence|done].
Qed.

(** One operation keeps the world well formed, and it creates a record for
    [nm] only when it brings [nm] into the table. *)
Lemma run_operation_maintains op nm w w' :
  well_formed w ->
  run_operation op w = Some (Ok tt w') ->
  well_formed w' /\
  (creations nm (trace w') + registered w nm
   <= creations nm (trace w) + registered w' nm
      + (if unregisters nm op then 1 else 0))%nat.
Proof.
  intros Hwf Hrun.
  destruct op as [nm0|self nm0| |cl| |fuel uo| |nm0]; simpl in Hrun;
    simpl unregisters; rewrite ?Nat.add_0_r.
  - (* register *)
    injection Hrun as Hrun.
    destruct (register_nmethod_Ok_inv _ _ _ Hrun) as [n Hn].
    destruct (_gc_data n) as [d|] eqn:Hg.
    + destruct (wf_data_valid w Hwf nm0 n d Hn Hg) as [snap Hsnap].
      destruct (register_nmethod_attached nm0 n d _ w Hn Hg Hsnap)
        as (w'' & Hrun' & Hc & Hd & Ht & Htr & _).
      rewrite Hrun in Hrun'. injection Hrun' as <-.
      assert (nm0 ∈ table w) as Hin
        by (apply (wf_attached w Hwf nm0 n Hn); eauto).
      rewrite decide_True in Ht by done.
      split; [now apply (well_formed_register_attached nm0 n d w)|].
      unfold registered. rewrite Ht, Htr, creations_app.
      assert (creations nm
                ([EvOopsCreate (spec_snapshot n);
                  EvOopsDestroy (_oops {| _oops := Some snap |});
                  EvTableRegister nm0] ++
                 (if barrier_set_nmethod then [EvDisarm nm0] else []))
              = 0%nat) as ->
        by (destruct barrier_set_nmethod; reflexivity).
      lia.
    + destruct (register_nmethod_fresh nm0 n w Hn Hg)
        as (w'' & Hrun' & Hc & Hd & Ht & Htr & _).
      rewrite Hrun in Hrun'. injection Hrun' as <-.
      assert (nm0 ∉ table w) as Hnotin.
      { intros Hin. apply (wf_attached w Hwf nm0 n Hn) in Hin as [d' Hd'].
        congruence. }
      rewrite decide_False in Ht by done.
      split; [now apply (well_formed_register_fresh nm0 n w)|].
      unfold registered. rewrite Ht, Htr, creations_app.
      assert (creations nm
                ([EvDataCreate nm0 (fresh_data (data_heap w));
                  EvOopsCreate (spec_snapshot n); EvOopsDestroy None;
                  EvTableRegister nm0] ++
                 (if barrier_set_nmethod then [EvDisarm nm0] else []))
              = (if bool_decide (nm0 = nm) then 1 else 0)%nat) as ->
        by (unfold creations; simpl;
            destruct barrier_set_nmethod, (bool_decide (nm0 = nm)); reflexivity).
      destruct (decide (nm0 = nm)) as [->|Hne].
      * rewrite bool_decide_eq_true_2 by done.
        rewrite (bool_decide_eq_false_2 _ Hnotin).
        rewrite bool_decide_eq_true_2
          by (apply elem_of_app; right; apply list_elem_of_singleton; done).
        lia.
      * rewrite (bool_decide_eq_false_2 _ Hne).
        rewrite (bool_decide_ext (nm ∈ table w ++ [nm0]) (nm ∈ table w)).
        -- lia.
        -- rewrite elem_of_app, list_elem_of_singleton.
           split; [intros [?|?]; [done|congruence]|tauto].
  - (* unregister *)
    injection Hrun as Hrun.
    destruct (unregister_nmethod_Ok_inv _ _ _ _ Hrun) as [Hl [n Hn]].
    destruct (unregister_nmethod_run self nm0 n w Hl Hn)
      as (w'' & Hrun' & Htr & Ht & Hc & Hd).
    rewrite Hrun in Hrun'. injection Hrun' as <-.
    split; [now apply (well_formed_unregister nm0 n w)|].
    assert (creations nm (trace w') = creations nm (trace w)) as ->.
    { rewrite Htr, !creations_app.
      destruct (is_Code_cache_sweeper_thread self); unfold creations; simpl;
        lia. }
    destruct (bool_decide (nm0 = nm)) eqn:Hop.
    + pose proof (registered_le_1 w nm). lia.
    + apply bool_decide_eq_false in Hop.
      rewrite (registered_filter_ne nm nm0 w w' Hop Ht). lia.
  - (* oops_do_begin *)
    injection Hrun as <-.
    split; [now apply (well_formed_transfer w)|].
    unfold registered. simpl. rewrite creations_app.
    unfold creations at 2. simpl. lia.
  - (* oops_do *)
    injection Hrun as Hrun. unfold oops_do in Hrun.
    apply bind_Ok_inv in Hrun as (cl' & w1 & Hpass & Hret).
    injection Hret as <-.
    apply nmethods_do_oops_do_inv in Hpass
      as ((Hc & Hd & Ht & _) & delta & Htr & Hvis).
    split.
    + apply (well_formed_transfer w); try done. intros nm'. now rewrite Hc.
    + unfold registered.
      rewrite Ht, Htr, creations_app,
        (creations_no_create nm delta (visits_no_create delta Hvis)).
      lia.
  - (* oops_do_end *)
    injection Hrun as <-.
    split; [now apply (well_formed_transfer w)|].
    unfold registered. simpl. rewrite creations_app.
    unfold creations at 2. simpl. lia.
  - (* unlink *)
    apply unlink_frame in Hrun as (Hc & Hd & Ht & delta & Htr & Hcr).
    split.
    + apply (well_formed_transfer w); try done. intros nm'. now rewrite Hc.
    + unfold registered.
      rewrite Ht, Htr, creations_app, (creations_no_create nm delta Hcr).
      lia.
  - (* purge *)
    injection Hrun as Hrun.
    destruct (purge_run w (wf_table_NoDup w Hwf) (wf_table_valid w Hwf))
      as (w'' & Hrun' & Htr & Hheap & _ & Hd & Ht & _).
    rewrite Hrun in Hrun'. injection Hrun' as <-.
    split.
    + apply (well_formed_transfer w); try done.
      intros nm'. rewrite Hheap.
      destruct (code_heap w !! nm') as [n|]; [|done]. simpl. f_equal.
      unfold purged.
      now destruct (bool_decide (nm' ∈ table w) && is_alive n && is_unloading n).
    + unfold registered. rewrite Ht, Htr, !creations_app.
      rewrite creations_make_unloaded.
      unfold creations at 2 3. simpl. lia.
  - (* lock_for_nmethod *)
    injection Hrun as Hrun.
    apply bind_Ok_inv in Hrun as (l & w1 & Hlock & Hret).
    injection Hret as <-.
    unfold lock_for_nmethod, gc_data in Hlock.
    apply bind_Ok_inv in Hlock as (data & w2 & Hdata & Hlock).
    apply bind_Ok_inv in Hdata as (n & w3 & Hderef & Hret).
    apply deref_Ok_inv in Hderef as [-> _]. injection Hret as <- <-.
    assert (w1 = w) as -> by (destruct (_gc_data n); now injection Hlock).
    split; [done|]. lia.
Qed.

Lemma run_operations_maintain ops nm w w' :
  well_formed w ->
  run_operations ops w = Some (Ok tt w') ->
  well_formed w' /\
  (creations nm (trace w') + registered w nm
   <= creations nm (trace w) + registered w' nm + unregistrations nm ops)%nat.
Proof.
  revert w. induction ops as [|op ops IH]; intros w Hwf.
  - intros [= <-]. split; [done|]. unfold unregistrations. simpl. lia.
  - simpl run_operations.
    destruct (run_operation op w) as [[[] w1| |]|] eqn:Hop; try discriminate.
    intros Hrun.
    destruct (run_operation_maintains op nm w w1 Hwf Hop) as [Hwf1 Hcount1].
    destruct (IH w1 Hwf1 Hrun) as [Hwf' Hcount].
    split; [done|]. unfold unregistrations in *. simpl.
    destruct (unregisters nm op); simpl; lia.
Qed.

Lemma well_formed_unregistered w :
  table w = [] ->
  data_heap w = ∅ ->
  (forall nm n, code_heap w !! nm = Some n -> _gc_data n = None) ->
  well_formed w.
Proof.
  intros Ht Hd Hnone. split.
  - intros nm. rewrite Ht. intros Hin. now apply elem_of_nil in Hin.
  - rewrite Ht. apply NoDup_nil_2.
  - intros nm n Hn. rewrite Ht, (Hnone nm n Hn). split.
    + intros [d Hd']. discriminate.
    + intros Hin. now apply elem_of_nil in Hin.
  - intros nm n d Hn Hg. rewrite (Hnone nm n Hn) in Hg. discriminate.
  - intros d. rewrite Hd, lookup_empty. intros [x Hx]. discriminate.
  - intros nm1 nm2 n1 n2 d Hn1 _ Hg1. rewrite (Hnone nm1 n1 Hn1) in Hg1.
    discriminate.
Qed.

(** C5: a world without registrations is well formed, and every history of
    operations that return keeps it so; in a well-formed world a unit has a
    metadata record iff it is in the registration table.  A history creates
    at most one record for a unit, plus one for each time it unregisters the
    unit in between, and none for a unit that is in the table from the start
    and stays there: registering a unit again keeps the record and its lock,
    installs a fresh snapshot and destroys the old one.  [unregister_nmethod]
    destroys the record and clears the attachment slot. *)
Theorem attachment_invariant_maintained :
  (forall w,
     table w = [] -> data_heap w = ∅ ->
     (forall nm n, code_heap w !! nm = Some n -> _gc_data n = None) ->
     well_formed w) /\
  (forall ops nm w w',
     well_formed w ->
     run_operations ops w = Some (Ok tt w') ->
     well_formed w' /\ attachment_invariant w' /\
     (creations nm (trace w') + registered w nm
      <= creations nm (trace w) + 1 + unregistrations nm ops)%nat) /\
  (forall nm n d w,
     well_formed w ->
     code_heap w !! nm = Some n -> _gc_data n = Some d ->
     exists w' rec,
       data_heap w !! d = Some rec /\
       register_nmethod nm w = Ok tt w' /\
       code_heap w' = code_heap w /\
       data_heap w' =
         <[d := {| _oops := Some (spec_snapshot n) |}]> (data_heap w) /\
       table w' = table w /\
       trace w' =
         trace w ++
         [EvOopsCreate (spec_snapshot n); EvOopsDestroy (_oops rec);
          EvTableRegister nm] ++
         (if barrier_set_nmethod then [EvDisarm nm] else [])) /\
  (forall nm n w,
     well_formed w ->
     code_heap w !! nm = Some n -> _gc_data n = None ->
     exists w' d,
       data_heap w !! d = None /\
       register_nmethod nm w = Ok tt w' /\
       code_heap w' = <[nm := with_gc_data n (Some d)]> (code_heap w) /\
       data_heap w' =
         <[d := {| _oops := Some (spec_snapshot n) |}]> (data_heap w) /\
       table w' = table w ++ [nm] /\
       creations nm (trace w') = S (creations nm (trace w))) /\
  (forall self nm n w,
     owns_CodeCache_lock self = true ->
     code_heap w !! nm = Some n ->
     exists w',
       unregister_nmethod self nm w = Ok tt w' /\
       ~ has_gc_data w' nm /\ (nm ∉ table w') /\
       code_heap w' !! nm = Some (with_gc_data n None) /\
       (forall d, _gc_data n = Some d ->
          data_heap w' = delete d (data_heap w) /\
          EvDataDestroy (Some d) ∈ trace w')).
Proof.
  split; [exact well_formed_unregistered|].
  split; [|split; [|split]].
  - intros ops nm w w' Hwf Hrun.
    destruct (run_operations_maintain ops nm w w' Hwf Hrun) as [Hwf' Hcount].
    split; [done|]. split; [now apply well_formed_attachment_invariant|].
    pose proof (registered_le_1 w' nm). lia.
  - intros nm n d w Hwf Hn Hg.
    destruct (wf_data_valid w Hwf nm n d Hn Hg) as [snap Hsnap].
    destruct (register_nmethod_attached nm n d _ w Hn Hg Hsnap)
      as (w' & Hrun & Hc & Hd & Ht & Htr & _).
    exists w', {| _oops := Some snap |}.
    rewrite decide_True in Ht
      by (apply (wf_attached w Hwf nm n Hn); eauto).
    repeat split; done.
  - intros nm n w Hwf Hn Hg.
    destruct (register_nmethod_fresh nm n w Hn Hg)
      as (w' & Hrun & Hc & Hd & Ht & Htr & _).
    exists w', (fresh_data (data_heap w)).
    rewrite decide_False in Ht.
    2:{ intros Hin. apply (wf_attached w Hwf nm n Hn) in Hin as [d' Hd'].
        congruence. }
    split; [apply fresh_data_None|]. repeat split; try done.
    rewrite Htr, creations_app. unfold creations at 2. simpl.
    rewrite bool_decide_eq_true_2 by done.
    destruct barrier_set_nmethod; simpl; lia.
  - intros self nm n w Hl Hn.
    destruct (unregister_nmethod_run self nm n w Hl Hn)
      as (w' & Hrun & Htr & Ht & Hc & Hd).
    exists w'. split; [done|]. split; [|split; [|split]].
    + intros (n' & d & rec & Hn' & Hg & _). rewrite Hc in Hn'.
      rewrite lookup_insert_eq in Hn'. injection Hn' as <-. discriminate.
    + rewrite Ht, list_elem_of_filter. intros [Hne _]. now apply Hne.
    + now rewrite Hc, lookup_insert_eq.
    + intros d Hg. rewrite Hg in Hd, Htr. split; [done|].
      rewrite Htr, !elem_of_app. right. right. right. left.
Qed.

End Proofs.

Lemma attach_gc_data_classifies_witness :
  exists w' n' d snap,
    attach_gc_data 1%positive ex_world_unregistered = Ok tt w' /\
    code_heap w' !! 1%positive = Some n' /\ _gc_data n' = Some d /\
    data_heap w' !! d = Some {| _oops := Some snap |} /\
    immediates snap = [100] /\
    (forall a, a ∈ immediates snap <->
       exists r, r ∈ ex_relocations /\ type r = oop_type /\
                 oop_is_immediate r = true /\ oop_value r <> NULL /\
                 oop_addr r = a) /\
    (has_non_immediates snap = true <->
       exists r, r ∈ ex_relocations /\ type r = oop_type /\
                 oop_is_immediate r = false).
Proof.
  apply (attach_gc_data_classifies 1%positive (ex_nmethod None true false)).
  - reflexivity.
  - intros d Hd. discriminate Hd.
Defined.

Lemma ex_heal_keeps_non_oop_words (p : address) :
  keeps_non_oop_words (ex_heal p).
Proof.
  intros m q. unfold ex_heal. simpl.
  destruct (q =? p); [|reflexivity].
  destruct (m q =? -1) eqn:Hq; [reflexivity|].
  apply Z.eqb_neq. lia.
Qed.

Lemma nmethod_oops_do_traversal_witness :
  exists w',
    nmethod_oops_do 1%positive ex_heal (ex_world true false 0) = Ok tt w' /\
    trace w' = [EvDoOop 11; EvDoOop 100; EvFixOopRelocations 1%positive] /\
    memory w' 10 = -1 /\ memory w' 11 = 13 /\ memory w' 100 = 101.
Proof.
  destruct (nmethod_oops_do_traversal 1%positive
              (ex_nmethod (Some 5%positive) true false) 5%positive
              ex_snapshot ex_heal (ex_world true false 0)
              eq_refl eq_refl eq_refl)
    as (w' & visited1 & m1 & visited2 & m2 & Hrun & Hv1 & Hv2 & Htr & Hmem & _).
  exists w'. split; [exact Hrun|].
  injection Hv1 as <- <-. injection Hv2 as <- <-.
  rewrite Htr, Hmem. repeat split; reflexivity.
Defined.

Lemma nmethod_oops_do_idempotent_witness :
  exists w1 w2,
    nmethod_oops_do 1%positive ex_heal (ex_world true false 0) = Ok tt w1 /\
    nmethod_oops_do 1%positive ex_heal w1 = Ok tt w2 /\
    trace w1 = [EvDoOop 11; EvDoOop 100; EvFixOopRelocations 1%positive] /\
    trace w2 = trace w1 ++
               [EvDoOop 11; EvDoOop 100; EvFixOopRelocations 1%positive] /\
    data_heap w2 !! 5%positive = Some {| _oops := Some ex_snapshot |}.
Proof.
  destruct (nmethod_oops_do_idempotent 1%positive
              (ex_nmethod (Some 5%positive) true false) 5%positive
              ex_snapshot ex_heal (ex_world true false 0)
              eq_refl eq_refl eq_refl
              ex_heal_keeps_non_oop_words
              (ex_heal_keeps_non_oop_words 11))
    as (w1 & w2 & Hrun1 & Hrun2 & Htr1 & Htr2 & _ & _ & _ & _ & Hsnap).
  exists w1, w2. repeat split; assumption.
Defined.

Lemma lock_for_nmethod_spec_witness :
  lock_for_nmethod 1%positive (ex_world true false 0)
    = Ok (Some (LockOf 5%positive)) (ex_world true false 0) /\
  lock_for_nmethod 2%positive (ex_world true false 0)
    = Ok None (ex_world true false 0).
Proof.
  split.
  - exact (proj1 (lock_for_nmethod_spec 1%positive
                    (ex_nmethod (Some 5%positive) true false)
                    (ex_world true false 0) eq_refl) 5%positive eq_refl).
  - exact (proj1 (proj2 (lock_for_nmethod_spec 2%positive
                           (ex_nmethod None true false)
                           (ex_world true false 0) eq_refl)) eq_refl).
Defined.

Lemma unregister_nmethod_spec_witness :
  unregister_nmethod {| owns_CodeCache_lock := false;
                        is_Code_cache_sweeper_thread := true |}
    1%positive (ex_world true false 0) = Fatal "Lock must be held" /\
  exists w',
    unregister_nmethod ex_sweeper 1%positive (ex_world true false 0) = Ok tt w' /\
    trace w' = [EvWaitUntilIterationDone; EvTableUnregister 1%positive;
                EvDataDestroy (Some 5%positive)] /\
    table w' = [] /\ data_heap w' = delete 5%positive (data_heap (ex_world true false 0)).
Proof.
  split.
  - exact (proj1 (unregister_nmethod_spec
                    {| owns_CodeCache_lock := false;
                       is_Code_cache_sweeper_thread := true |} 1%positive
                    (ex_nmethod (Some 5%positive) true false)
                    (ex_world true false 0) eq_refl) eq_refl).
  - destruct (proj2 (unregister_nmethod_spec ex_sweeper 1%positive
                       (ex_nmethod (Some 5%positive) true false)
                       (ex_world true false 0) eq_refl) eq_refl)
      as (w' & Hrun & Htr & Htab & _ & _ & Hdata & _).
    exists w'. repeat split; assumption.
Defined.

Lemma unlink_do_nmethod_spec_witness :
  exists w',
    ZNMethodUnlinkClosure_do_nmethod
      {| _unloading_occurred := true; _failed := false |} 1%positive
      (ex_world true false 1)
    = Ok {| _unloading_occurred := true; _failed := false |} w' /\
    trace w' =
      [EvLock (LockOf 5%positive); EvDoOop 11; EvDoOop 100;
       EvFixOopRelocations 1%positive; EvDisarm 1%positive;
       EvUnloadNMethodCaches 1%positive true true;
       EvUnlock (LockOf 5%positive)] /\
    ext w' = 0%nat.
Proof.
  destruct (proj2 (proj2 (unlink_do_nmethod_spec
              {| _unloading_occurred := true; _failed := false |} 1%positive
              (ex_nmethod (Some 5%positive) true false) 5%positive
              ex_snapshot (ex_world true false 1) eq_refl eq_refl eq_refl))
              eq_refl eq_refl eq_refl)
    as (w' & Hrun & Htr & _ & Hext & _).
  exists w'. repeat split; assumption.
Defined.

(** C2 as stated fails where the barrier set has no nmethod entry barrier:
    the unit is alive, not unloading and processed with the flag unset, and
    its entry barrier is not disarmed. *)
Lemma unlink_do_nmethod_without_disarm :
  exists cl' w',
    @ZNMethodUnlinkClosure_do_nmethod nat ex_collaborators_no_barrier
      {| _unloading_occurred := true; _failed := false |} 1%positive
      (ex_world true false 1)
    = Ok cl' w' /\
    trace w' =
      [EvLock (LockOf 5%positive); EvDoOop 11; EvDoOop 100;
       EvFixOopRelocations 1%positive;
       EvUnloadNMethodCaches 1%positive true true;
       EvUnlock (LockOf 5%positive)] /\
    EvDisarm 1%positive ∉ trace w'.
Proof.
  eexists _, _. split; [vm_compute; reflexivity|]. split; [reflexivity|].
  simpl. rewrite !elem_of_cons, elem_of_nil.
  intros H. repeat destruct H as [H|H]; try discriminate H. exact H.
Qed.

Lemma unlink_retries_until_success_witness :
  exists w' k wk delta,
    unlink 2 true (ex_world true false 0) = Some (Ok tt w') /\
    (k < 2)%nat /\
    failed_passes k true (ex_world true false 0) = Some wk /\
    unlink_task true wk = Ok true w' /\
    trace w' = trace wk ++ [EvNMethodsDoBegin] ++ delta ++ [EvNMethodsDoEnd] /\
    existsb is_release_failure delta = false /\
    trace w' =
      [EvNMethodsDoBegin; EvLock (LockOf 5%positive); EvDoOop 11; EvDoOop 100;
       EvFixOopRelocations 1%positive; EvDisarm 1%positive;
       EvUnloadNMethodCaches 1%positive true false;
       EvUnlock (LockOf 5%positive); EvNMethodsDoEnd;
       EvSTSLeave; EvRefillICStubs; EvSTSJoin;
       EvNMethodsDoBegin; EvLock (LockOf 5%positive); EvDoOop 11; EvDoOop 100;
       EvFixOopRelocations 1%positive; EvDisarm 1%positive;
       EvUnloadNMethodCaches 1%positive true true;
       EvUnlock (LockOf 5%positive); EvNMethodsDoEnd].
Proof.
  destruct (unlink 2 true (ex_world true false 0)) as [[[] w'| |]|] eqn:Hrun;
    try (vm_compute in Hrun; discriminate Hrun).
  destruct (proj1 (unlink_retries_until_success true (ex_world true false 0))
              2%nat w' Hrun)
    as (k & wk & delta & Hk & Hpasses & Hlast & Htr & Hrel).
  exists w', k, wk, delta. repeat split; try assumption.
  vm_compute in Hrun. injection Hrun as <-. reflexivity.
Defined.

Lemma unloading_units_never_fail_the_pass_witness :
  exists w',
    unlink_task true (ex_world true true 0) = Ok true w' /\
    forall fuel, unlink (S fuel) true (ex_world true true 0) = Some (Ok tt w').
Proof.
  apply (proj2 (proj2 unloading_units_never_fail_the_pass)).
  intros nm Hin. apply list_elem_of_singleton in Hin as ->.
  exists (ex_nmethod (Some 5%positive) true true), 5%positive.
  repeat split; reflexivity.
Defined.

Lemma purge_finalizes_unloading_units_witness :
  exists w',
    purge (ex_world true true 0) = Ok tt w' /\
    trace w' =
      [EvNMethodsDoBegin; EvMakeUnloaded 1%positive; EvNMethodsDoEnd] /\
    code_heap w' !! 1%positive
      = Some (ex_nmethod (Some 5%positive) false true) /\
    code_heap w' !! 2%positive = Some (ex_nmethod None true false).
Proof.
  destruct (purge_finalizes_unloading_units (ex_world true true 0))
    as (w' & Hrun & Htr & Hheap & _).
  - apply NoDup_singleton.
  - intros nm Hin. apply list_elem_of_singleton in Hin as ->.
    eexists. reflexivity.
  - exists w'. split; [exact Hrun|]. split; [exact Htr|]. split.
    + apply (Hheap 1%positive (ex_nmethod (Some 5%positive) true true));
        [reflexivity|left|reflexivity|reflexivity].
    + apply (Hheap 2%positive (ex_nmethod None true false)); [reflexivity|].
      left. intros Hin. apply list_elem_of_singleton in Hin. discriminate Hin.
Defined.

Lemma attachment_invariant_maintained_witness :
  exists w',
    run_operations
      [OpRegister 1%positive; OpOopsDo ex_heal; OpRegister 1%positive;
       OpUnlink 3 true; OpPurge]
      ex_world_unregistered = Some (Ok tt w') /\
    well_formed w' /\ attachment_invariant w' /\
    (creations 1%positive (trace w') <= 1)%nat.
Proof.
  assert (well_formed ex_world_unregistered) as Hwf.
  { apply attachment_invariant_maintained; [reflexivity|reflexivity|].
    intros nm n Hn. unfold ex_world_unregistered in Hn. simpl in Hn.
    apply lookup_singleton_Some in Hn as [_ <-]. reflexivity. }
  destruct (run_operations
              [OpRegister 1%positive; OpOopsDo ex_heal; OpRegister 1%positive;
               OpUnlink 3 true; OpPurge] ex_world_unregistered)
    as [[[] w'| |]|] eqn:Hrun;
    try (vm_compute in Hrun; discriminate Hrun).
  destruct (proj1 (proj2 attachment_invariant_maintained) _ 1%positive _ _
              Hwf Hrun) as (Hwf' & Hinv & Hcount).
  exists w'. split; [reflexivity|]. split; [exact Hwf'|]. split; [exact Hinv|].
  unfold unregistrations in Hcount. simpl in Hcount. lia.
Defined.

(** ** More about the operations *)

Section More.

Context {Ext : Type} `{!Collaborators Ext}.

Implicit Types (w : @World Ext) (nm : nmethod_ptr) (n : nmethod) (d : data_ptr).

(** *** The unlink closure as a step relation *)

Lemma do_nmethod_unlink_step cl nm w cl' w' :
  ZNMethodUnlinkClosure_do_nmethod cl nm w = Ok cl' w' ->
  exists delta,
    trace w' = trace w ++ delta /\
    unlink_step cl nm w cl' delta /\
    code_heap w' = code_heap w /\ data_heap w' = data_heap w /\
    table w' = table w.
Proof.
  intros Hrun.
  destruct (failed cl) eqn:Hf.
  { rewrite do_nmethod_failed in Hrun by done. injection Hrun as <- <-.
    exists []. rewrite app_nil_r. repeat split; try done.
    now apply step_failed. }
  destruct (code_heap w !! nm) as [n|] eqn:Hn.
  2:{ unfold ZNMethodUnlinkClosure_do_nmethod, bind, deref in Hrun.
      now rewrite Hf, Hn in Hrun. }
  destruct (is_alive n) eqn:Ha.
  2:{ rewrite (do_nmethod_not_alive cl nm n) in Hrun by done.
      injection Hrun as <- <-.
      exists []. rewrite app_nil_r. repeat split; try done.
      now apply (step_not_alive cl nm w n). }
  destruct (is_unloading n) eqn:Hu.
  - pose proof (step_unloading cl nm w n Hf Hn Ha Hu) as Hstep.
    unfold ZNMethodUnlinkClosure_do_nmethod in Hrun. rewrite Hf in Hrun.
    rewrite (bind_Ok _ _ w n w) in Hrun by now apply deref_Some.
    rewrite Ha in Hrun. simpl in Hrun.
    rewrite (bind_Ok _ _ w _ w) in Hrun
      by now apply (lock_for_nmethod_Some nm n).
    rewrite Hu in Hrun.
    destruct (_gc_data n) as [d|]; simpl in Hrun, Hstep;
      injection Hrun as <- <-; simpl;
      (eexists; split; [|split; [exact Hstep|done]]);
      now rewrite <- !app_assoc.
  - assert (exists d snapshot, _gc_data n = Some d /\
              data_heap w !! d = Some {| _oops := Some snapshot |})
      as (d & snapshot & Hd & Hsnap).
    { unfold ZNMethodUnlinkClosure_do_nmethod in Hrun. rewrite Hf in Hrun.
      rewrite (bind_Ok _ _ w n w) in Hrun by now apply deref_Some.
      rewrite Ha in Hrun. simpl in Hrun.
      rewrite (bind_Ok _ _ w _ w) in Hrun
        by now apply (lock_for_nmethod_Some nm n).
      rewrite Hu in Hrun.
      apply bind_Ok_inv in Hrun as ([] & w0 & Hlock & Hrun).
      apply bind_Ok_inv in Hrun as ([] & w1 & Hvisit & _).
      apply nmethod_oops_do_inv in Hvisit
        as (n' & d & snapshot & Hn' & Hd & Hsnap).
      assert (code_heap w0 = code_heap w /\ data_heap w0 = data_heap w)
        as [Hc0 Hd0].
      { destruct (_gc_data n); simpl in Hlock; injection Hlock as <-; done. }
      rewrite Hc0, Hn in Hn'. injection Hn' as <-.
      rewrite Hd0 in Hsnap. eauto. }
    pose proof (step_alive cl nm w n d snapshot Hf Hn Ha Hu Hd Hsnap) as Hstep.
    destruct (unlink_do_nmethod_alive_trace cl nm n d snapshot w
                Hf Hn Hd Hsnap Ha Hu)
      as (w'' & Hdo & Htr & Hc & Hdh & Ht).
    rewrite Hdo in Hrun. injection Hrun as <- <-.
    eexists. split; [|split; [exact Hstep|done]].
    rewrite Htr. simpl. now rewrite <- !app_assoc.
Qed.

(** *** Registering and unregistering *)

Lemma with_gc_data_None n d :
  _gc_data n = None -> with_gc_data (with_gc_data n (Some d)) None = n.
Proof. destruct n as [b e rs g a u]. simpl. intros ->. reflexivity. Qed.

Lemma filter_ne_notin (l : list nmethod_ptr) nm :
  nm ∉ l -> filter (fun x => x ≠ nm) l = l.
Proof.
  induction l as [|x l IH]; intros Hnotin; [done|].
  apply not_elem_of_cons in Hnotin as [Hne Hnotin].
  rewrite filter_cons_True by congruence. now rewrite IH.
Qed.

Lemma unregister_nmethod_slots self nm n w w' :
  owns_CodeCache_lock self = true ->
  code_heap w !! nm = Some n ->
  unregister_nmethod self nm w = Ok tt w' ->
  memory w' = memory w /\ ext w' = ext w.
Proof.
  intros Hl Hn Hrun.
  rewrite (unregister_nmethod_locked self nm n w Hl Hn) in Hrun.
  injection Hrun as <-.
  now destruct (_gc_data n), (is_Code_cache_sweeper_thread self).
Qed.

(** X1: registering a unit that has no metadata record and unregistering
    it again gives back the code cache, the metadata records and the
    registration table as they were; slots and collaborators are not
    touched. *)
Theorem register_unregister_round_trip self nm n w :
  well_formed w ->
  owns_CodeCache_lock self = true ->
  code_heap w !! nm = Some n ->
  _gc_data n = None ->
  exists w1 w2,
    register_nmethod nm w = Ok tt w1 /\
    unregister_nmethod self nm w1 = Ok tt w2 /\
    has_gc_data w1 nm /\ nm ∈ table w1 /\
    code_heap w2 = code_heap w /\ data_heap w2 = data_heap w /\
    table w2 = table w /\ memory w2 = memory w /\ ext w2 = ext w.
Proof.
  intros Hwf Hl Hn Hg.
  destruct (register_nmethod_fresh nm n w Hn Hg)
    as (w1 & Hrun1 & Hc1 & Hd1 & Ht1 & _ & Hm1 & He1).
  assert (nm ∉ table w) as Hnotin.
  { intros Hin. apply (wf_attached w Hwf nm n Hn) in Hin as [d' Hd'].
    congruence. }
  rewrite decide_False in Ht1 by done.
  set (d := fresh_data (data_heap w)) in *.
  assert (code_heap w1 !! nm = Some (with_gc_data n (Some d))) as Hn1
    by now rewrite Hc1, lookup_insert_eq.
  destruct (unregister_nmethod_run self nm _ w1 Hl Hn1)
    as (w2 & Hrun2 & _ & Ht2 & Hc2 & Hd2).
  destruct (unregister_nmethod_slots self nm _ w1 w2 Hl Hn1 Hrun2)
    as [Hm2 He2].
  exists w1, w2. split; [done|]. split; [done|]. split; [|split].
  - exists (with_gc_data n (Some d)), d, {| _oops := Some (spec_snapshot n) |}.
    rewrite Hd1, lookup_insert_eq. now repeat split.
  - rewrite Ht1, elem_of_app, list_elem_of_singleton. now right.
  - repeat split.
    + rewrite Hc2, Hc1, insert_insert_eq, with_gc_data_None by done.
      now apply insert_id.
    + rewrite Hd2. simpl. rewrite Hd1, delete_insert_eq.
      apply delete_id, fresh_data_None.
    + rewrite Ht2, Ht1, filter_app, filter_ne_notin by done.
      rewrite filter_cons_False by (intros H; now apply H).
      now rewrite filter_nil, app_nil_r.
    + congruence.
    + congruence.
Qed.

(** X2: registering a unit a second time, with its code unchanged, changes
    neither the code cache nor the metadata records nor the table: the
    second snapshot equals the first and is installed in the same record. *)
Theorem register_nmethod_twice nm n w :
  well_formed w ->
  code_heap w !! nm = Some n ->
  exists w1 w2,
    register_nmethod nm w = Ok tt w1 /\
    register_nmethod nm w1 = Ok tt w2 /\
    code_heap w2 = code_heap w1 /\ data_heap w2 = data_heap w1 /\
    table w2 = table w1 /\ memory w2 = memory w /\ ext w2 = ext w.
Proof.
  intros Hwf Hn.
  assert (exists w1 n1 d,
            register_nmethod nm w = Ok tt w1 /\
            code_heap w1 !! nm = Some n1 /\ _gc_data n1 = Some d /\
            relocations n1 = relocations n /\
            data_heap w1 !! d = Some {| _oops := Some (spec_snapshot n) |} /\
            nm ∈ table w1 /\ memory w1 = memory w /\ ext w1 = ext w)
    as (w1 & n1 & d & Hrun1 & Hn1 & Hg1 & Hrs & Hsnap1 & Hin1 & Hm1 & He1).
  { destruct (_gc_data n) as [d|] eqn:Hg.
    - destruct (wf_data_valid w Hwf nm n d Hn Hg) as [snap Hsnap].
      destruct (register_nmethod_attached nm n d _ w Hn Hg Hsnap)
        as (w1 & Hrun1 & Hc1 & Hd1 & Ht1 & _ & Hm1 & He1).
      exists w1, n, d. rewrite Hc1, Hd1, lookup_insert_eq.
      repeat split; try done.
      rewrite Ht1. case_decide; [done|].
      rewrite elem_of_app, list_elem_of_singleton. now right.
    - destruct (register_nmethod_fresh nm n w Hn Hg)
        as (w1 & Hrun1 & Hc1 & Hd1 & Ht1 & _ & Hm1 & He1).
      exists w1, (with_gc_data n (Some (fresh_data (data_heap w)))),
        (fresh_data (data_heap w)).
      rewrite Hc1, Hd1, !lookup_insert_eq.
      repeat split; try done.
      rewrite Ht1. case_decide; [done|].
      rewrite elem_of_app, list_elem_of_singleton. now right. }
  destruct (register_nmethod_attached nm n1 d _ w1 Hn1 Hg1 Hsnap1)
    as (w2 & Hrun2 & Hc2 & Hd2 & Ht2 & _ & Hm2 & He2).
  exists w1, w2. split; [done|]. split; [done|].
  rewrite decide_True in Ht2 by done.
  repeat split; try congruence.
  rewrite Hd2. apply insert_id. rewrite Hsnap1.
  unfold spec_snapshot. now rewrite Hrs.
Qed.




(** *** The visitor and the table scan *)

Lemma nmethod_oops_do_not_Fatal nm cl w msg :
  nmethod_oops_do nm cl w <> Fatal msg.
Proof.
  unfold nmethod_oops_do, bind at 1, deref.
  destruct (code_heap w !! nm) as [n|]; [|discriminate].
  unfold bind at 1. rewrite oops_table_do_immediates_do.
  destruct (immediates_do_spec cl
              (seqZ (oops_begin n)
                 (Z.of_nat (Z.to_nat (oops_end n - oops_begin n)))) w)
    as (w1 & -> & _).
  unfold bind at 1, gc_data, bind at 1, deref.
  destruct (code_heap w1 !! nm) as [n1|]; [|discriminate].
  unfold ret at 1. destruct (_gc_data n1) as [d|]; [|discriminate].
  unfold bind at 1, oops, bind at 1, deref_data.
  destruct (data_heap w1 !! d) as [[[snapshot|]]|]; try discriminate.
  unfold ret at 1, bind at 1. simpl.
  destruct (immediates_do_spec cl (immediates snapshot) w1) as (w2 & -> & _).
  now destruct (has_non_immediates snapshot).
Qed.

(** X4: the visitor returns exactly on the units that have a metadata
    record with a snapshot; on any other unit (no such nmethod, an empty
    attachment slot, a record without snapshot) its behaviour is undefined,
    for it dereferences the slot and the snapshot pointer unchecked.  It
    never stops with a fatal error. *)
Theorem nmethod_oops_do_defined_iff nm cl w :
  ((exists w', nmethod_oops_do nm cl w = Ok tt w') <->
   (exists n d snapshot,
      code_heap w !! nm = Some n /\ _gc_data n = Some d /\
      data_heap w !! d = Some {| _oops := Some snapshot |})) /\
  ((forall w', nmethod_oops_do nm cl w <> Ok tt w') ->
   nmethod_oops_do nm cl w = Undefined).
Proof.
  split.
  - split.
    + intros [w' Hrun]. now apply (nmethod_oops_do_inv nm cl w w').
    + intros (n & d & snapshot & Hn & Hd & Hsnap).
      destruct (nmethod_oops_do_registered nm n d snapshot cl w Hn Hd Hsnap)
        as (w' & Hrun & _).
      eauto.
  - intros Hnot.
    destruct (nmethod_oops_do nm cl w) as [[] w'|msg|] eqn:Hrun.
    + now destruct (Hnot w').
    + now destruct (nmethod_oops_do_not_Fatal nm cl w msg).
    + reflexivity.
Qed.

Lemma fix_in_spec_traversal nm nm' n snapshot cl m :
  EvFixOopRelocations nm' ∈ (spec_traversal nm n snapshot cl m).1 <->
  nm' = nm /\ has_non_immediates snapshot = true.
Proof.
  unfold spec_traversal.
  destruct (visit_slots cl (oops_table n) m) as [visited1 m1].
  destruct (visit_slots cl (immediates snapshot) m1) as [visited2 m2].
  assert (forall ps : list address, EvFixOopRelocations nm' ∉ EvDoOop <$> ps)
    as Hno.
  { intros ps Hin. apply list_elem_of_fmap in Hin as (p & Hp & _).
    discriminate. }
  destruct (has_non_immediates snapshot); simpl;
    rewrite !elem_of_app, ?list_elem_of_singleton.
  - split.
    + intros [Hin|[Hin|Heq]]; [now destruct (Hno visited1)
                               |now destruct (Hno visited2)|].
      injection Heq as ->. done.
    + intros [-> _]. right. now right.
  - split.
    + intros [Hin|Hin]; [now destruct (Hno visited1)|now destruct (Hno visited2)].
    + intros [_ Hf]. discriminate.
Qed.

Lemma nmethods_do_oops_do_run (entries : list nmethod_ptr) cl w :
  (forall nm, nm ∈ entries ->
     exists n d snapshot,
       code_heap w !! nm = Some n /\ _gc_data n = Some d /\
       data_heap w !! d = Some {| _oops := Some snapshot |}) ->
  exists w' delta,
    nmethods_do_entries ZNMethodToOopsDoClosure_do_nmethod cl entries w
      = Ok cl w' /\
    same_but_slots w w' /\
    trace w' = trace w ++ delta /\
    forallb is_visit delta = true /\
    (forall nm,
       EvFixOopRelocations nm ∈ delta <->
       nm ∈ entries /\
       exists n d snapshot,
         code_heap w !! nm = Some n /\ _gc_data n = Some d /\
         data_heap w !! d = Some {| _oops := Some snapshot |} /\
         has_non_immediates snapshot = true).
Proof.
  revert w. induction entries as [|nm0 entries IH]; intros w Hall.
  - exists w, []. simpl. rewrite app_nil_r.
    split; [done|]. split; [apply same_but_slots_refl|].
    split; [done|]. split; [done|].
    intros nm. rewrite elem_of_nil. split; [done|]. intros [Hin _].
    now apply elem_of_nil in Hin.
  - destruct (Hall nm0) as (n0 & d0 & snap0 & Hn0 & Hd0 & Hsnap0); [left|].
    destruct (nmethod_oops_do_registered nm0 n0 d0 snap0 cl w Hn0 Hd0 Hsnap0)
      as (w1 & Hrun1 & Htr1 & _ & Hsame1).
    pose proof Hsame1 as (Hc1 & Hdh1 & _ & _).
    destruct (IH w1) as (w' & delta & Hrun & Hsame & Htr & Hvis & Hfix).
    { intros nm Hin. rewrite Hc1, Hdh1. apply Hall. now right. }
    exists w', ((spec_traversal nm0 n0 snap0 cl (memory w)).1 ++ delta).
    split.
    { simpl. unfold ZNMethodToOopsDoClosure_do_nmethod at 1.
      unfold bind at 1 2. rewrite Hrun1. exact Hrun. }
    split; [now apply (same_but_slots_trans w w1 w')|].
    split; [now rewrite Htr, Htr1, <- app_assoc|].
    split; [now rewrite forallb_app, spec_traversal_visits, Hvis|].
    intros nm. rewrite elem_of_app, fix_in_spec_traversal, Hfix, elem_of_cons.
    rewrite Hc1, Hdh1. split.
    + intros [[-> Hflag]|[Hin Hreg]].
      * split; [now left|]. now exists n0, d0, snap0.
      * split; [now right|done].
    + intros [[->|Hin] (n & d & snapshot & Hn & Hd & Hsnap & Hflag)].
      * left. split; [done|].
        assert (n = n0) as -> by congruence.
        assert (d = d0) as -> by congruence.
        congruence.
      * right. split; [done|]. now exists n, d, snapshot.
Qed.

Lemma well_formed_registered w nm :
  well_formed w -> nm ∈ table w ->
  exists n d snapshot,
    code_heap w !! nm = Some n /\ _gc_data n = Some d /\
    data_heap w !! d = Some {| _oops := Some snapshot |}.
Proof.
  intros Hwf Hin.
  destruct (wf_table_valid w Hwf nm Hin) as [n Hn].
  destruct (proj2 (wf_attached w Hwf nm n Hn) Hin) as [d Hd].
  destruct (wf_data_valid w Hwf nm n d Hn Hd) as [snapshot Hsnap].
  now exists n, d, snapshot.
Qed.

(** X5: in a well-formed world [oops_do] returns; it makes visitor calls
    only, changes nothing but slot contents, and runs the relocation-fix
    routine of exactly those units that are in the registration table and
    whose snapshot has the non-immediate flag set. *)
Theorem oops_do_scans_the_table cl w :
  well_formed w ->
  exists w' delta,
    oops_do cl w = Ok tt w' /\
    same_but_slots w w' /\
    trace w' = trace w ++ delta /\
    forallb is_visit delta = true /\
    (forall nm,
       EvFixOopRelocations nm ∈ delta <->
       nm ∈ table w /\
       exists n d snapshot,
         code_heap w !! nm = Some n /\ _gc_data n = Some d /\
         data_heap w !! d = Some {| _oops := Some snapshot |} /\
         has_non_immediates snapshot = true).
Proof.
  intros Hwf.
  destruct (nmethods_do_oops_do_run (table w) cl w)
    as (w' & delta & Hrun & Hrest).
  { intros nm. now apply well_formed_registered. }
  exists w', delta. split; [|exact Hrest].
  unfold oops_do, bind, ZNMethodTable_nmethods_do. now rewrite Hrun.
Qed.

Lemma unit_calls_registered w nm n d snapshot :
  code_heap w !! nm = Some n -> _gc_data n = Some d ->
  data_heap w !! d = Some {| _oops := Some snapshot |} ->
  unit_calls w nm = spec_calls nm n snapshot (memory w).
Proof. intros Hn Hd Hsnap. unfold unit_calls. now rewrite Hn, Hd, Hsnap. Qed.

Lemma spec_calls_ext nm n snapshot m m' :
  (forall q, (m' q =? non_oop_word) = (m q =? non_oop_word)) ->
  spec_calls nm n snapshot m' = spec_calls nm n snapshot m.
Proof.
  intros Hm. unfold spec_calls.
  now rewrite !(live_slots_ext _ m m' Hm).
Qed.

Lemma nmethods_do_oops_do_calls (entries : list nmethod_ptr) cl w0 w :
  (forall p, keeps_non_oop_words (cl p)) ->
  (forall nm, keeps_non_oop_words (fix_oop_relocations nm)) ->
  code_heap w = code_heap w0 -> data_heap w = data_heap w0 ->
  (forall q, (memory w q =? non_oop_word) = (memory w0 q =? non_oop_word)) ->
  (forall nm, nm ∈ entries ->
     exists n d snapshot,
       code_heap w0 !! nm = Some n /\ _gc_data n = Some d /\
       data_heap w0 !! d = Some {| _oops := Some snapshot |}) ->
  exists w',
    nmethods_do_entries ZNMethodToOopsDoClosure_do_nmethod cl entries w
      = Ok cl w' /\
    trace w' = trace w ++ List.concat (List.map (unit_calls w0) entries).
Proof.
  intros Hcl Hfix. revert w.
  induction entries as [|nm0 entries IH]; intros w Hc Hdh Hm Hall.
  - exists w. simpl. now rewrite app_nil_r.
  - destruct (Hall nm0) as (n0 & d0 & snap0 & Hn0 & Hd0 & Hsnap0); [left|].
    destruct (nmethod_oops_do_stable nm0 n0 d0 snap0 cl w)
      as (w1 & Hrun1 & Htr1 & (Hc1 & Hdh1 & _ & _) & Hm1);
      [congruence|done|congruence|done|].
    destruct (IH w1) as (w' & Hrun & Htr).
    { congruence. }
    { congruence. }
    { intros q. now rewrite (Hm1 (Hfix nm0) q). }
    { intros nm Hin. apply Hall. now right. }
    exists w'. split.
    { simpl. unfold ZNMethodToOopsDoClosure_do_nmethod at 1.
      unfold bind at 1 2. rewrite Hrun1. exact Hrun. }
    rewrite Htr, Htr1, <- app_assoc. simpl. do 2 f_equal.
    rewrite (unit_calls_registered w0 nm0 n0 d0 snap0 Hn0 Hd0 Hsnap0).
    now apply spec_calls_ext.
Qed.

(** X6: with a callback and relocation-fix routines that neither write nor
    erase the non-oop word, [oops_do] in a well-formed world makes, unit by
    unit in the order of the table, the calls of that unit's traversal as
    determined by the slot contents at the start of the scan. *)
Theorem oops_do_calls cl w :
  well_formed w ->
  (forall p, keeps_non_oop_words (cl p)) ->
  (forall nm, keeps_non_oop_words (fix_oop_relocations nm)) ->
  exists w',
    oops_do cl w = Ok tt w' /\
    trace w' = trace w ++ List.concat (List.map (unit_calls w) (table w)).
Proof.
  intros Hwf Hcl Hfix.
  destruct (nmethods_do_oops_do_calls (table w) cl w w Hcl Hfix)
    as (w' & Hrun & Htr); try done.
  { intros nm. now apply well_formed_registered. }
  exists w'. split; [|done].
  unfold oops_do, bind, ZNMethodTable_nmethods_do. now rewrite Hrun.
Qed.

(** *** Unlinking in a well-formed world *)

Lemma do_nmethod_total cl nm n d snapshot w :
  code_heap w !! nm = Some n -> _gc_data n = Some d ->
  data_heap w !! d = Some {| _oops := Some snapshot |} ->
  exists cl' w', ZNMethodUnlinkClosure_do_nmethod cl nm w = Ok cl' w'.
Proof.
  intros Hn Hd Hsnap.
  destruct (failed cl) eqn:Hf.
  { exists cl, w. now apply do_nmethod_failed. }
  destruct (is_alive n) eqn:Ha.
  2:{ exists cl, w. now apply (do_nmethod_not_alive cl nm n). }
  destruct (is_unloading n) eqn:Hu.
  - eexists _, _. now apply (do_nmethod_unloading cl nm n d).
  - destruct (do_nmethod_alive cl nm n d snapshot w Hf Hn Hd Hsnap Ha Hu)
      as (w1 & w' & _ & Hrun & _).
    eauto.
Qed.

Lemma nmethods_do_unlink_total (entries : list nmethod_ptr) cl w :
  (forall nm, nm ∈ entries ->
     exists n d snapshot,
       code_heap w !! nm = Some n /\ _gc_data n = Some d /\
       data_heap w !! d = Some {| _oops := Some snapshot |}) ->
  exists cl' w',
    nmethods_do_entries ZNMethodUnlinkClosure_do_nmethod cl entries w
      = Ok cl' w'.
Proof.
  revert cl w. induction entries as [|nm entries IH]; intros cl w Hall.
  - now exists cl, w.
  - destruct (Hall nm) as (n & d & snapshot & Hn & Hd & Hsnap); [left|].
    destruct (do_nmethod_total cl nm n d snapshot w Hn Hd Hsnap)
      as (cl1 & w1 & Hstep).
    destruct (do_nmethod_step _ _ _ _ _ Hstep)
      as (delta & _ & _ & _ & Hc & Hdh & _).
    destruct (IH cl1 w1) as (cl' & w' & Hrun).
    { intros nm' Hin. rewrite Hc, Hdh. apply Hall. now right. }
    exists cl', w'. simpl. now rewrite (bind_Ok _ _ w cl1 w1).
Qed.

Lemma unlink_task_total unloading_occurred w :
  well_formed w ->
  exists b w',
    unlink_task unloading_occurred w = Ok b w' /\ well_formed w'.
Proof.
  intros Hwf.
  destruct (nmethods_do_unlink_total (table w)
              {| _unloading_occurred := unloading_occurred; _failed := false |}
              (add_event EvNMethodsDoBegin w))
    as (cl' & w1 & Hpass).
  { intros nm Hin. simpl. now apply well_formed_registered. }
  assert (exists b w', unlink_task unloading_occurred w = Ok b w')
    as (b & w' & Htask).
  { unfold unlink_task. unfold bind at 1. simpl.
    unfold ZNMethodTable_nmethods_do at 1.
    rewrite (bind_Ok _ _ _ _ w1) by exact Hpass.
    simpl. eauto. }
  exists b, w'. split; [done|].
  destruct (unlink_task_inv _ _ _ _ Htask) as (delta & _ & _ & Hc & Hd & Ht & _).
  apply (well_formed_transfer w); try done. intros nm. now rewrite Hc.
Qed.

(** X7: in a well-formed world no turn of the loop of [unlink] dereferences
    NULL or fails an assertion: every task returns, with the world still
    well formed, and so for any bound on the number of turns [unlink] has
    either returned or is still retrying. *)
Theorem unlink_never_undefined unloading_occurred w :
  well_formed w ->
  (exists b w',
     unlink_task unloading_occurred w = Ok b w' /\ well_formed w') /\
  (forall fuel,
     unlink fuel unloading_occurred w = None \/
     exists w',
       unlink fuel unloading_occurred w = Some (Ok tt w') /\ well_formed w').
Proof.
  intros Hwf. split; [now apply unlink_task_total|].
  intros fuel. revert w Hwf.
  induction fuel as [|fuel IH]; intros w Hwf; [now left|].
  simpl.
  destruct (unlink_task_total unloading_occurred w Hwf)
    as (b & w1 & Htask & Hwf1).
  rewrite Htask. destruct b.
  - right. now exists w1.
  - apply IH. apply (well_formed_transfer w1); done.
Qed.

(** *** What a pass does to the units *)











(** *** The first failure of a pass *)



(** *** Locks and the registry during unlink *)

Lemma lock_state_quiet (held : option ZReentrantLock) (tr : list event) :
  existsb is_lock_event tr = false -> lock_state held tr = Some held.
Proof.
  induction tr as [|e tr IH]; simpl; [done|].
  intros H. apply orb_false_elim in H as [He Htr].
  destruct e; try discriminate; now apply IH.
Qed.

Lemma lock_state_app (held held' : option ZReentrantLock)
    (tr tr' : list event) :
  lock_state held tr = Some held' ->
  lock_state held (tr ++ tr') = lock_state held' tr'.
Proof.
  revert held. induction tr as [|e tr IH]; intros held; simpl.
  - now intros [= ->].
  - destruct e; try apply IH.
    + destruct held; [discriminate|apply IH].
    + destruct held as [l'|]; [|discriminate].
      destruct (lock_eqb l' l); [apply IH|discriminate].
Qed.

Lemma lock_eqb_refl (l : ZReentrantLock) : lock_eqb l l = true.
Proof. destruct l. apply Pos.eqb_refl. Qed.

Lemma lock_state_locked (l : option ZReentrantLock) (body : list event) :
  existsb is_lock_event body = false ->
  lock_state None (locked l body) = Some None.
Proof.
  intros Hbody. destruct l as [l|]; simpl.
  - rewrite (lock_state_app (Some l) (Some l)) by now apply lock_state_quiet.
    simpl. now rewrite lock_eqb_refl.
  - now apply lock_state_quiet.
Qed.

Lemma registry_locked (l : option ZReentrantLock) (body : list event) :
  existsb is_registry_event body = false ->
  existsb is_registry_event (locked l body) = false.
Proof.
  intros Hbody. destruct l; simpl; [|done].
  now rewrite existsb_app, Hbody.
Qed.

Lemma visits_no_lock (delta : list event) :
  forallb is_visit delta = true -> existsb is_lock_event delta = false.
Proof.
  induction delta as [|e delta IH]; simpl; [done|].
  intros H. apply andb_prop in H as [He Hd].
  rewrite (IH Hd). now destruct e.
Qed.

Lemma visits_no_registry (delta : list event) :
  forallb is_visit delta = true -> existsb is_registry_event delta = false.
Proof.
  induction delta as [|e delta IH]; simpl; [done|].
  intros H. apply andb_prop in H as [He Hd].
  rewrite (IH Hd). now destruct e.
Qed.

Lemma unlink_step_quiet cl nm w cl' delta :
  unlink_step cl nm w cl' delta ->
  lock_state None delta = Some None /\
  existsb is_registry_event delta = false.
Proof.
  intros Hstep. destruct Hstep as [Hf|n Hf|n Hf Hn Ha Hu|n d snap Hf Hn Ha Hu].
  - done.
  - done.
  - split; [now apply lock_state_locked|now apply registry_locked].
  - pose proof (spec_traversal_visits nm n snap ZNMethodOopClosure (memory w))
      as Hvis.
    split.
    + apply lock_state_locked.
      rewrite !existsb_app, (visits_no_lock _ Hvis).
      now destruct barrier_set_nmethod.
    + apply registry_locked.
      rewrite !existsb_app, (visits_no_registry _ Hvis).
      now destruct barrier_set_nmethod.
Qed.

Lemma nmethods_do_unlink_quiet (entries : list nmethod_ptr) cl w cl' w' :
  nmethods_do_entries ZNMethodUnlinkClosure_do_nmethod cl entries w
    = Ok cl' w' ->
  exists delta,
    trace w' = trace w ++ delta /\
    lock_state None delta = Some None /\
    existsb is_registry_event delta = false.
Proof.
  revert cl w. induction entries as [|nm0 entries IH]; intros cl w; simpl.
  - intros [= <- <-]. exists []. now rewrite app_nil_r.
  - intros Hrun.
    apply bind_Ok_inv in Hrun as (cl1 & w1 & Hstep & Hrun).
    apply do_nmethod_unlink_step in Hstep as (delta1 & Htr1 & Hstep & _).
    apply unlink_step_quiet in Hstep as [Hl1 Hr1].
    apply IH in Hrun as (delta2 & Htr2 & Hl2 & Hr2).
    exists (delta1 ++ delta2). rewrite Htr2, Htr1, <- app_assoc.
    split; [done|].
    now rewrite (lock_state_app None None), existsb_app, Hr1.
Qed.

Lemma unlink_quiet fuel unloading_occurred w w' :
  unlink fuel unloading_occurred w = Some (Ok tt w') ->
  exists delta,
    trace w' = trace w ++ delta /\
    lock_state None delta = Some None /\
    existsb is_registry_event delta = false.
Proof.
  revert w. induction fuel as [|fuel IH]; intros w; simpl; [discriminate|].
  destruct (unlink_task unloading_occurred w) as [b w1| |] eqn:Htask;
    try discriminate.
  assert (exists delta1,
            trace w1 = trace w ++ delta1 /\
            lock_state None delta1 = Some None /\
            existsb is_registry_event delta1 = false)
    as (delta1 & Htr1 & Hl1 & Hr1).
  { unfold unlink_task in Htask.
    unfold bind at 1 in Htask. simpl in Htask.
    apply bind_Ok_inv in Htask as (cl' & w0 & Hpass & Hend).
    unfold ZNMethodTable_nmethods_do in Hpass. simpl in Hpass.
    apply nmethods_do_unlink_quiet in Hpass as (delta & Htr & Hl & Hr).
    simpl in Hend. injection Hend as _ <-. simpl in *.
    exists ([EvNMethodsDoBegin] ++ delta ++ [EvNMethodsDoEnd]).
    rewrite Htr, <- !app_assoc. split; [done|]. simpl.
    now rewrite (lock_state_app None None), existsb_app, Hr. }
  destruct b.
  - intros [= <-]. now exists delta1.
  - intros Hrun. apply IH in Hrun as (delta & Htr & Hl & Hr).
    simpl in Htr.
    exists (delta1 ++ [EvSTSLeave; EvRefillICStubs; EvSTSJoin] ++ delta).
    rewrite Htr, Htr1, <- !app_assoc. split; [done|].
    rewrite (lock_state_app None None) by done.
    now rewrite !existsb_app, Hr1, Hr.
Qed.


(** X11: [unlink] never registers, unregisters or finalises a unit and
    never creates or destroys a metadata record or a snapshot: the code
    cache, the metadata records and the table are the same when it returns,
    however many passes it took. *)
Theorem unlink_leaves_the_registry fuel unloading_occurred w w' :
  unlink fuel unloading_occurred w = Some (Ok tt w') ->
  code_heap w' = code_heap w /\ data_heap w' = data_heap w /\
  table w' = table w /\
  exists delta,
    trace w' = trace w ++ delta /\
    existsb is_registry_event delta = false.
Proof.
  intros Hrun.
  destruct (unlink_frame _ _ _ _ Hrun) as (Hc & Hd & Ht & _).
  apply unlink_quiet in Hrun as (delta & Htr & _ & Hr).
  repeat split; try done. now exists delta.
Qed.

(** *** Purge after unlink, and purge after purge *)



Lemma purged_not_selected b n :
  is_alive (purged b n) && is_unloading (purged b n) = false \/ b = false.
Proof.
  unfold purged. destruct b; [left|now right]. simpl.
  destruct (is_alive n) eqn:Ha, (is_unloading n) eqn:Hu; simpl;
    now rewrite ?Ha, ?Hu.
Qed.

Lemma purged_purged b n : purged b (purged b n) = purged b n.
Proof.
  unfold purged. destruct b; [|done]. simpl.
  destruct (is_alive n) eqn:Ha, (is_unloading n) eqn:Hu; simpl;
    now rewrite ?Ha, ?Hu.
Qed.

Lemma filter_none {A} (f : A -> bool) (l : list A) :
  (forall x, x ∈ l -> f x = false) -> List.filter f l = [].
Proof.
  induction l as [|x l IH]; intros Hall; [done|]. simpl.
  rewrite (Hall x) by left. apply IH. intros y Hy. apply Hall. now right.
Qed.

(** X13: a unit is finalised once: a second [purge] right after a first
    calls [make_unloaded] on no unit and leaves the code cache as the first
    left it. *)
Theorem purge_twice w :
  NoDup (table w) ->
  (forall nm, nm ∈ table w -> is_Some (code_heap w !! nm)) ->
  exists w1 w2,
    purge w = Ok tt w1 /\ purge w1 = Ok tt w2 /\
    trace w2 = trace w1 ++ [EvNMethodsDoBegin; EvNMethodsDoEnd] /\
    code_heap w2 = code_heap w1.
Proof.
  intros Hnodup Hvalid.
  destruct (purge_run w Hnodup Hvalid)
    as (w1 & Hrun1 & _ & Hheap1 & _ & _ & Ht1 & _).
  destruct (purge_run w1) as (w2 & Hrun2 & Htr2 & Hheap2 & _).
  { now rewrite Ht1. }
  { intros nm Hin. rewrite Ht1 in Hin. rewrite Hheap1.
    destruct (Hvalid nm Hin) as [n ->]. simpl. eauto. }
  exists w1, w2. split; [done|]. split; [done|]. split.
  - rewrite Htr2, filter_none; [done|].
    intros nm Hin. unfold purge_selected. rewrite Hheap1.
    rewrite Ht1 in Hin. rewrite (bool_decide_eq_true_2 _ Hin).
    destruct (code_heap w !! nm) as [n|]; [|done]. simpl.
    now destruct (purged_not_selected true n).
  - apply map_eq. intros nm. rewrite Hheap2, Hheap1, Ht1.
    destruct (code_heap w !! nm) as [n|]; [|done]. simpl.
    now rewrite purged_purged.
Qed.

(** *** The order of scans and refills *)







(** *** Locks across registrations *)

Lemma lock_for_nmethod_pure nm l w w' :
  lock_for_nmethod nm w = Ok l w' -> w' = w.
Proof.
  unfold lock_for_nmethod, gc_data. intros Hl.
  apply bind_Ok_inv in Hl as (data & w3 & Hdata & Hl).
  apply bind_Ok_inv in Hdata as (n & w4 & Hderef & Hret).
  apply deref_Ok_inv in Hderef as [-> _]. injection Hret as _ <-.
  unfold ret in Hl. now destruct data; injection Hl as _ <-.
Qed.

(** X15: in a well-formed world the locks are per unit: [lock_for_nmethod]
    gives two different units that both have a lock two different locks. *)
Theorem locks_are_per_unit nm1 nm2 l1 l2 w w1 w2 :
  well_formed w ->
  nm1 ≠ nm2 ->
  lock_for_nmethod nm1 w = Ok (Some l1) w1 ->
  lock_for_nmethod nm2 w = Ok (Some l2) w2 ->
  l1 ≠ l2.
Proof.
  intros Hwf Hne Hl1 Hl2 Heq.
  assert (forall nm l w0,
            lock_for_nmethod nm w = Ok (Some l) w0 ->
            exists n d, code_heap w !! nm = Some n /\ _gc_data n = Some d /\
                        l = LockOf d) as Hinv.
  { intros nm l w0 Hl.
    unfold lock_for_nmethod, gc_data in Hl.
    apply bind_Ok_inv in Hl as (data & w3 & Hdata & Hl).
    apply bind_Ok_inv in Hdata as (n & w4 & Hderef & Hret).
    apply deref_Ok_inv in Hderef as [-> Hn]. injection Hret as <- <-.
    unfold ret in Hl.
    destruct (_gc_data n) as [d|] eqn:Hd; [|discriminate Hl].
    injection Hl as <- _. now exists n, d. }
  destruct (Hinv _ _ _ Hl1) as (n1 & d1 & Hn1 & Hd1 & ->).
  destruct (Hinv _ _ _ Hl2) as (n2 & d2 & Hn2 & Hd2 & ->).
  injection Heq as <-.
  apply Hne. now apply (wf_data_unshared w Hwf nm1 nm2 n1 n2 d1).
Qed.

(** X16: registering a unit again does not change its lock, so a lock taken
    before a re-registration is still the unit's lock after it; once the
    unit is unregistered [lock_for_nmethod] returns NULL for it. *)
Theorem lock_across_registration self nm n d w :
  well_formed w ->
  owns_CodeCache_lock self = true ->
  code_heap w !! nm = Some n -> _gc_data n = Some d ->
  exists w1 w2,
    lock_for_nmethod nm w = Ok (Some (LockOf d)) w /\
    register_nmethod nm w = Ok tt w1 /\
    lock_for_nmethod nm w1 = Ok (Some (LockOf d)) w1 /\
    unregister_nmethod self nm w1 = Ok tt w2 /\
    lock_for_nmethod nm w2 = Ok None w2.
Proof.
  intros Hwf Hl Hn Hd.
  destruct (wf_data_valid w Hwf nm n d Hn Hd) as [snap Hsnap].
  destruct (register_nmethod_attached nm n d _ w Hn Hd Hsnap)
    as (w1 & Hrun1 & Hc1 & _).
  assert (code_heap w1 !! nm = Some n) as Hn1 by now rewrite Hc1.
  destruct (unregister_nmethod_run self nm n w1 Hl Hn1)
    as (w2 & Hrun2 & _ & _ & Hc2 & _).
  exists w1, w2.
  rewrite (lock_for_nmethod_Some nm n w Hn),
    (lock_for_nmethod_Some nm n w1 Hn1),
    (lock_for_nmethod_Some nm (with_gc_data n None) w2)
    by now rewrite Hc2, lookup_insert_eq.
  rewrite Hd. now repeat split.
Qed.

End More.

(** *** The example code cache is well formed *)

Lemma ex_world_well_formed alive unloading pool :
  well_formed (ex_world alive unloading pool).
Proof.
  assert (forall nm n,
            code_heap (ex_world alive unloading pool) !! nm = Some n ->
            (nm = 1%positive /\
             n = ex_nmethod (Some 5%positive) alive unloading) \/
            (nm = 2%positive /\ n = ex_nmethod None true false)) as Hheap.
  { intros nm n Hn. simpl in Hn.
    apply lookup_insert_Some in Hn as [[<- <-]|[_ Hn]]; [now left|].
    apply lookup_singleton_Some in Hn as [<- <-]. now right. }
  split.
  - intros nm Hin. apply list_elem_of_singleton in Hin as ->. now eexists.
  - apply NoDup_singleton.
  - intros nm n Hn. simpl. rewrite list_elem_of_singleton.
    destruct (Hheap nm n Hn) as [[-> ->]|[-> ->]]; simpl.
    + split; eauto.
    + split; [intros [d Hd]; discriminate|discriminate].
  - intros nm n d Hn Hd.
    destruct (Hheap nm n Hn) as [[-> ->]|[-> ->]]; simpl in Hd;
      [|discriminate].
    injection Hd as <-. now exists ex_snapshot.
  - intros d Hd. simpl in Hd. destruct Hd as [rec Hd].
    apply lookup_singleton_Some in Hd as [<- _].
    now exists 1%positive, (ex_nmethod (Some 5%positive) alive unloading).
  - intros nm1 nm2 n1 n2 d Hn1 Hn2 Hd1 Hd2.
    destruct (Hheap nm1 n1 Hn1) as [[-> ->]|[-> ->]];
      destruct (Hheap nm2 n2 Hn2) as [[-> ->]|[-> ->]];
      simpl in *; congruence.
Qed.

Lemma ex_fix_keeps_non_oop_words (nm : nmethod_ptr) :
  @keeps_non_oop_words nat ex_collaborators
    (@fix_oop_relocations nat ex_collaborators nm).
Proof. apply ex_heal_keeps_non_oop_words. Qed.

(** *** The theorems above, at the example code cache *)

Lemma register_unregister_round_trip_witness :
  exists w1 w2,
    register_nmethod 2%positive (ex_world true false 0) = Ok tt w1 /\
    unregister_nmethod ex_sweeper 2%positive w1 = Ok tt w2 /\
    has_gc_data w1 2%positive /\ 2%positive ∈ table w1 /\
    code_heap w2 = code_heap (ex_world true false 0) /\
    data_heap w2 = data_heap (ex_world true false 0) /\
    table w2 = [1%positive] /\
    memory w2 = ex_memory /\ ext w2 = 0%nat.
Proof.
  exact (register_unregister_round_trip ex_sweeper 2%positive
           (ex_nmethod None true false) (ex_world true false 0)
           (ex_world_well_formed true false 0) eq_refl eq_refl eq_refl).
Defined.

Lemma register_nmethod_twice_witness :
  exists w1 w2,
    register_nmethod 1%positive (ex_world true false 0) = Ok tt w1 /\
    register_nmethod 1%positive w1 = Ok tt w2 /\
    code_heap w2 = code_heap w1 /\ data_heap w2 = data_heap w1 /\
    table w2 = table w1 /\ memory w2 = ex_memory /\ ext w2 = 0%nat.
Proof.
  exact (register_nmethod_twice 1%positive
           (ex_nmethod (Some 5%positive) true false) (ex_world true false 0)
           (ex_world_well_formed true false 0) eq_refl).
Defined.


Lemma nmethod_oops_do_defined_iff_witness :
  (exists w', nmethod_oops_do 1%positive ex_heal (ex_world true false 0)
              = Ok tt w') /\
  nmethod_oops_do 2%positive ex_heal (ex_world true false 0) = Undefined.
Proof.
  split.
  - apply (proj1 (nmethod_oops_do_defined_iff 1%positive ex_heal
                    (ex_world true false 0))).
    exists (ex_nmethod (Some 5%positive) true false), 5%positive, ex_snapshot.
    repeat split; reflexivity.
  - apply (proj2 (nmethod_oops_do_defined_iff 2%positive ex_heal
                    (ex_world true false 0))).
    intros w' Hrun.
    destruct (proj1 (proj1 (nmethod_oops_do_defined_iff 2%positive ex_heal
                              (ex_world true false 0)))
                (ex_intro _ w' Hrun))
      as (n & d & snapshot & Hn & Hd & _).
    injection Hn as <-. discriminate Hd.
Defined.

Lemma oops_do_scans_the_table_witness :
  exists w' delta,
    oops_do ex_heal (ex_world true false 0) = Ok tt w' /\
    same_but_slots (ex_world true false 0) w' /\
    trace w' = delta /\
    forallb is_visit delta = true /\
    EvFixOopRelocations 1%positive ∈ delta /\
    EvFixOopRelocations 2%positive ∉ delta.
Proof.
  destruct (oops_do_scans_the_table ex_heal (ex_world true false 0)
              (ex_world_well_formed true false 0))
    as (w' & delta & Hrun & Hsame & Htr & Hvis & Hfix).
  exists w', delta.
  split; [exact Hrun|]. split; [exact Hsame|]. split; [exact Htr|].
  split; [exact Hvis|]. split.
  - apply Hfix. split; [left|].
    exists (ex_nmethod (Some 5%positive) true false), 5%positive, ex_snapshot.
    repeat split; reflexivity.
  - intros Hin. apply Hfix in Hin as [Hin _].
    apply list_elem_of_singleton in Hin. discriminate Hin.
Defined.

Lemma oops_do_calls_witness :
  exists w',
    oops_do ex_heal (ex_world true false 0) = Ok tt w' /\
    trace w' = [EvDoOop 11; EvDoOop 100; EvFixOopRelocations 1%positive].
Proof.
  exact (oops_do_calls ex_heal (ex_world true false 0)
           (ex_world_well_formed true false 0)
           ex_heal_keeps_non_oop_words ex_fix_keeps_non_oop_words).
Defined.

Lemma unlink_never_undefined_witness :
  (exists b w',
     unlink_task true (ex_world true false 0) = Ok b w' /\ well_formed w') /\
  (forall fuel,
     unlink fuel true (ex_world true false 0) = None \/
     exists w',
       unlink fuel true (ex_world true false 0) = Some (Ok tt w') /\
       well_formed w').
Proof.
  exact (unlink_never_undefined true (ex_world true false 0)
           (ex_world_well_formed true false 0)).
Defined.




Lemma unlink_leaves_the_registry_witness :
  exists w',
    unlink 2 true (ex_world true false 0) = Some (Ok tt w') /\
    code_heap w' = code_heap (ex_world true false 0) /\
    data_heap w' = data_heap (ex_world true false 0) /\
    table w' = [1%positive] /\
    existsb is_registry_event (trace w') = false.
Proof.
  destruct (unlink 2 true (ex_world true false 0)) as [[[] w'| |]|] eqn:Hrun;
    try (vm_compute in Hrun; discriminate Hrun).
  destruct (unlink_leaves_the_registry _ _ _ _ Hrun)
    as (Hc & Hd & Ht & delta & Htr & Hr).
  exists w'. repeat split; try assumption. now rewrite Htr.
Defined.


Lemma purge_twice_witness :
  exists w1 w2,
    purge (ex_world true true 0) = Ok tt w1 /\ purge w1 = Ok tt w2 /\
    trace w2 = trace w1 ++ [EvNMethodsDoBegin; EvNMethodsDoEnd] /\
    code_heap w2 = code_heap w1.
Proof.
  apply purge_twice.
  - apply (wf_table_NoDup _ (ex_world_well_formed true true 0)).
  - apply (wf_table_valid _ (ex_world_well_formed true true 0)).
Defined.


Lemma lock_across_registration_witness :
  exists w1 w2,
    lock_for_nmethod 1%positive (ex_world true false 0)
      = Ok (Some (LockOf 5%positive)) (ex_world true false 0) /\
    register_nmethod 1%positive (ex_world true false 0) = Ok tt w1 /\
    lock_for_nmethod 1%positive w1 = Ok (Some (LockOf 5%positive)) w1 /\
    unregister_nmethod ex_sweeper 1%positive w1 = Ok tt w2 /\
    lock_for_nmethod 1%positive w2 = Ok None w2.
Proof.
  exact (lock_across_registration ex_sweeper 1%positive
           (ex_nmethod (Some 5%positive) true false) 5%positive
           (ex_world true false 0)
           (ex_world_well_formed true false 0) eq_refl eq_refl eq_refl).
Defined.

Lemma locks_are_per_unit_witness :
  exists w1 l1 l2,
    register_nmethod 2%positive (ex_world true false 0) = Ok tt w1 /\
    lock_for_nmethod 1%positive w1 = Ok (Some l1) w1 /\
    lock_for_nmethod 2%positive w1 = Ok (Some l2) w1 /\
    l1 <> l2.
Proof.
  destruct (register_nmethod 2%positive (ex_world true false 0))
    as [[] w1| |] eqn:Hreg;
    try (vm_compute in Hreg; discriminate Hreg).
  assert (well_formed w1) as Hwf.
  { apply (run_operation_maintains (OpRegister 2%positive) 1%positive
             (ex_world true false 0) w1 (ex_world_well_formed true false 0)).
    simpl. now rewrite Hreg. }
  destruct (lock_for_nmethod 1%positive w1) as [[l1|] w2| |] eqn:Hl1;
    try (vm_compute in Hreg; injection Hreg as <-;
         vm_compute in Hl1; discriminate Hl1).
  destruct (lock_for_nmethod 2%positive w1) as [[l2|] w3| |] eqn:Hl2;
    try (vm_compute in Hreg; injection Hreg as <-;
         vm_compute in Hl2; discriminate Hl2).
  assert (w2 = w1 /\ w3 = w1) as [-> ->]
    by (split; [exact (lock_for_nmethod_pure _ _ _ _ Hl1)
               |exact (lock_for_nmethod_pure _ _ _ _ Hl2)]).
  exists w1, l1, l2. split; [reflexivity|]. split; [exact Hl1|].
  split; [exact Hl2|].
  apply (locks_are_per_unit 1%positive 2%positive l1 l2 w1 w1 w1 Hwf);
    [discriminate|exact Hl1|exact Hl2].
Defined.
